(** * Line-addressed file editor ([planning-with-files/edit_file.py])

    A shallow embedding of the command-line editor and the properties its
    specification states.  Python [str] values are modelled as [string]
    (characters are code points below 256), Python [int] values as [Z],
    Python lists as [list], and the process environment (files, standard
    input and output) as an explicit [world] threaded through a small
    state-and-exception monad. *)

From Stdlib Require Import Ascii String ZArith Lia.
From stdpp Require Import base list strings pretty gmap.

Open Scope Z_scope.

(** ** Python strings *)

Module PyStr.

(** The one-character string ['\n']. *)
Definition LF : ascii := Ascii.ascii_of_nat 10.
Definition CR : ascii := Ascii.ascii_of_nat 13.
Definition nl : string := String LF EmptyString.

(** [s.endswith(suf)]. *)
Fixpoint endswith (s suf : string) : bool :=
  String.eqb s suf ||
  match s with
  | EmptyString => false
  | String _ s' => endswith s' suf
  end.

(** [s.split('\n')]: the fragments between consecutive newlines; always
    a non-empty list, with one fragment more than there are newlines. *)
Fixpoint split_nl (s : string) : list string :=
  match s with
  | EmptyString => [EmptyString]
  | String c s' =>
      if Ascii.eqb c LF then EmptyString :: split_nl s'
      else match split_nl s' with
           | [] => [String c EmptyString]
           | h :: t => String c h :: t
           end
  end.

(** [''.join(lines)], which is also what [f.writelines(lines)] emits. *)
Definition join (lines : list string) : string :=
  foldr String.append EmptyString lines.

(** Truthiness of a string: [bool(s)] is [len(s) != 0]. *)
Definition truthy (s : string) : bool :=
  match s with EmptyString => false | _ => true end.

(** [l + '\n']. *)
Definition add_nl (l : string) : string := l +:+ nl.

End PyStr.

(** ** Python lists: negative indices and slices *)

Module PyList.

Section Slices.
Context {A : Type}.

(** Clamping of one slice bound against a list of length [n]
    (negative bounds count from the end). *)
Definition clamp (n : nat) (i : Z) : nat :=
  if i <? 0 then Z.to_nat (Z.max 0 (Z.of_nat n + i))
  else Z.to_nat (Z.min i (Z.of_nat n)).

(** [l[:i]] *)
Definition upto (i : Z) (l : list A) : list A :=
  take (clamp (length l) i) l.

(** [l[i:]] *)
Definition from (i : Z) (l : list A) : list A :=
  drop (clamp (length l) i) l.

(** [l[i:j]] *)
Definition slice (i j : Z) (l : list A) : list A :=
  let lo := clamp (length l) i in
  let hi := clamp (length l) j in
  take (hi - lo) (drop lo l).

(** [l[:-1]] and [l[-1]] (the latter raises on an empty list; it is
    only used on the result of [split], which is never empty). *)
Definition init (l : list A) : list A := upto (-1) l.
Definition last_or (d : A) (l : list A) : A := List.last l d.

(** [enumerate(l, start=k)] *)
Fixpoint enumerate (k : Z) (l : list A) : list (Z * A) :=
  match l with
  | [] => []
  | x :: l' => (k, x) :: enumerate (k + 1) l'
  end.
End Slices.

(** [l.index(x)]: position of the first element equal to [x]. *)
Fixpoint index (x : string) (l : list string) : option nat :=
  match l with
  | [] => None
  | y :: l' => if String.eqb y x then Some 0%nat else S <$> index x l'
  end.

End PyList.

(** ** Text splitting in the replace and insert branches *)

Import PyStr PyList.

(** Lines 43-47: the replacement text is split at newlines and every
    fragment is terminated; a trailing empty fragment is dropped. *)
Definition split_replace (new_content : string) : list string :=
  let new_lines := split_nl new_content in
  if negb (endswith new_content nl) then
    if truthy (last_or EmptyString new_lines)
    then map add_nl (init new_lines) ++ [add_nl (last_or EmptyString new_lines)]
    else map add_nl (init new_lines)
  else map add_nl (init new_lines).

(** Lines 57-58: a fragment is kept when it is non-empty, or when the
    first occurrence of an equal fragment lies before the last position. *)
Definition insert_keep (new_lines : list string) (l : string) : bool :=
  truthy l ||
  match index l new_lines with
  | Some i => Z.of_nat i <? Z.of_nat (length new_lines) - 1
  | None => false
  end.

Definition split_insert (new_content : string) : list string :=
  let new_lines := split_nl new_content in
  map add_nl (List.filter (insert_keep new_lines) new_lines).

(** ** Integer conversion and formatting *)

Module PyInt.

(** Characters that [int()] skips at both ends of its argument: tab to
    carriage return, space, and the two whitespace characters above 127
    (next line and no-break space).  The separators 28 to 31 are not
    skipped. *)
Definition is_space (c : ascii) : bool :=
  let n := nat_of_ascii c in
  ((9 <=? n) && (n <=? 13) || (n =? 32) || (n =? 133) || (n =? 160))%nat.

Definition is_digit (c : ascii) : bool :=
  let n := nat_of_ascii c in ((48 <=? n) && (n <=? 57))%nat.

Definition digit_val (c : ascii) : Z := Z.of_nat (nat_of_ascii c) - 48.

Fixpoint lstrip (s : string) : string :=
  match s with
  | String c s' => if is_space c then lstrip s' else s
  | EmptyString => EmptyString
  end.

Definition strip (s : string) : string :=
  String.rev (lstrip (String.rev (lstrip s))).

(** Decimal digits, where single underscores may separate digits.
    [seen] tells whether the previous character was a digit. *)
Fixpoint digits (acc : Z) (seen : bool) (s : string) : option Z :=
  match s with
  | EmptyString => if seen then Some acc else None
  | String c s' =>
      if is_digit c then digits (10 * acc + digit_val c) true s'
      else if Ascii.eqb c "_"%char
           then (if seen then digits acc false s' else None)
           else None
  end.

(** The number of digit characters of a literal. *)
Fixpoint digit_count (s : string) : Z :=
  match s with
  | EmptyString => 0
  | String c s' => (if is_digit c then 1 else 0) + digit_count s'
  end.

(** The most digits [int()] converts ([sys.int_info.default_max_str_digits]). *)
Definition max_str_digits : Z := 4300.

(** [int(s)] in base 10; [None] stands for [ValueError], which is
    raised for a malformed literal and for one of more than
    [max_str_digits] digits. *)
Definition int (s : string) : option Z :=
  match strip s with
  | String c r =>
      if max_str_digits <? digit_count (String c r) then None
      else if Ascii.eqb c "+"%char then digits 0 false r
      else if Ascii.eqb c "-"%char then Z.opp <$> digits 0 false r
      else digits 0 false (String c r)
  | EmptyString => None
  end.

(** [f"{i:4d}"]: decimal, right-aligned in a field of width four. *)
Definition fmt4d (i : Z) : string :=
  let s := pretty i in
  String.concat EmptyString (replicate (4 - String.length s) " ") +:+ s.

End PyInt.

(** ** The process environment *)

Inductive mode := ModeR | ModeW | ModeA.

(** [files] maps a path to the text of the file stored there, [stdin] is
    the unread part of standard input, [stdout] what has been printed,
    [opened] the log of [open] calls (most recent first).  [room] is the
    number of characters the storage device still accepts ([None]: no
    limit); a write that exceeds it stores the part that fits and raises
    [OSError].  [creatable] tells at which paths a file that does not
    exist can be created: the path is not empty and names an entry of a
    directory that exists. *)
Record world := World {
  files : gmap string string;
  stdin : string;
  stdout : string;
  room : option nat;
  opened : list (string * mode);
  creatable : string -> bool
}.

(** Uncaught exceptions.  [ValueError] carries the argument that
    [int()] has rejected.  [OSError] is the failure of a write;
    [FileNotFoundError] the failure to open a missing file for reading,
    or to create a file where none can be created. *)
Inductive exn :=
  | SystemExit (code : Z)
  | IndexError
  | ValueError (literal : string)
  | FileNotFoundError (path : string)
  | OSError (path : string).

Inductive result (A : Type) :=
  | Return (a : A)
  | Raise (e : exn).
Arguments Return {A} a.
Arguments Raise {A} e.

Definition M (A : Type) : Type := world -> result A * world.

Definition ret {A} (a : A) : M A := fun w => (Return a, w).
Definition raise {A} (e : exn) : M A := fun w => (Raise e, w).
Definition bind {A B} (m : M A) (k : A -> M B) : M B :=
  fun w => match m w with
           | (Return a, w') => k a w'
           | (Raise e, w') => (Raise e, w')
           end.

Notation "'do' x <- m ; k" := (bind m (fun x => k))
  (at level 10, x name, m at level 100, k at level 200).
Notation "m ;; k" := (bind m (fun _ => k))
  (at level 100, k at level 200, right associativity).

(** [for x in l: body(x)] *)
Fixpoint for_each {A} (l : list A) (body : A -> M unit) : M unit :=
  match l with
  | [] => ret tt
  | x :: l' => body x ;; for_each l' body
  end.

(** The status the interpreter exits with. *)
Definition exit_status {A} (r : result A) : Z :=
  match r with
  | Return _ => 0
  | Raise (SystemExit c) => c
  | Raise _ => 1
  end.

Module IO.

(** Text-mode reading turns ["\r\n"] and a lone ["\r"] into ["\n"]. *)
Fixpoint universal_newlines (s : string) : string :=
  match s with
  | EmptyString => EmptyString
  | String c s' =>
      if Ascii.eqb c CR then
        match s' with
        | String c' s'' =>
            if Ascii.eqb c' LF then String LF (universal_newlines s'')
            else String LF (universal_newlines s')
        | EmptyString => String LF EmptyString
        end
      else String c (universal_newlines s')
  end.

(** [f.readlines()] on decoded text: cut after every newline. *)
Fixpoint readlines (s : string) : list string :=
  match s with
  | EmptyString => []
  | String c s' =>
      if Ascii.eqb c LF then String c EmptyString :: readlines s'
      else match readlines s' with
           | [] => [String c EmptyString]
           | h :: t => String c h :: t
           end
  end.

Definition log_open (path : string) (m : mode) : M unit := fun w =>
  (Return tt,
   World (files w) (stdin w) (stdout w) (room w) ((path, m) :: opened w)
         (creatable w)).

Definition set_file (path : string) (text : string) : M unit := fun w =>
  (Return tt,
   World (<[path := text]> (files w)) (stdin w) (stdout w) (room w) (opened w)
         (creatable w)).

(** [f.write(text)] followed by the flush at [close], on a file whose
    stored text is [old]. *)
Definition store (path old text : string) : M unit := fun w =>
  match room w with
  | None =>
      (Return tt,
       World (<[path := old +:+ text]> (files w)) (stdin w) (stdout w) None (opened w)
             (creatable w))
  | Some r =>
      if (String.length text <=? r)%nat then
        (Return tt,
         World (<[path := old +:+ text]> (files w)) (stdin w) (stdout w)
               (Some (r - String.length text)%nat) (opened w) (creatable w))
      else
        (Raise (OSError path),
         World (<[path := old +:+ String.substring 0 r text]> (files w))
               (stdin w) (stdout w) (Some 0%nat) (opened w) (creatable w))
  end.

(** [sys.stdin.read()]: all of standard input, as it is (standard input
    is opened without newline translation). *)
Definition stdin_read : M string := fun w =>
  (Return (stdin w),
   World (files w) EmptyString (stdout w) (room w) (opened w) (creatable w)).

(** [print(s, end='')] and [print(s)] *)
Definition write_out (s : string) : M unit := fun w =>
  (Return tt,
   World (files w) (stdin w) (stdout w +:+ s) (room w) (opened w) (creatable w)).
Definition print (s : string) : M unit := write_out (s +:+ nl).

(** [sys.argv[k]] *)
Definition arg (argv : list string) (k : nat) : M string :=
  match argv !! k with
  | Some a => ret a
  | None => raise IndexError
  end.

(** [int(sys.argv[k])] *)
Definition int_arg (argv : list string) (k : nat) : M Z :=
  do a <- arg argv k;
  match PyInt.int a with
  | Some n => ret n
  | None => raise (ValueError a)
  end.

End IO.

Import IO.

(** ** The program *)

(** Lines 14-16. *)
Definition read_file (filepath : string) : M (list string) := fun w =>
  match files w !! filepath with
  | Some text =>
      (log_open filepath ModeR ;; ret (readlines (universal_newlines text))) w
  | None => (Raise (FileNotFoundError filepath), w)
  end.

(** Lines 18-20: opening for writing empties the file, then the lines
    are written one after the other. *)
Definition write_file (filepath : string) (lines : list string) : M unit :=
  log_open filepath ModeW ;;
  set_file filepath EmptyString ;;
  store filepath EmptyString (join lines).

(** Lines 66-67: opening for appending keeps the text of an existing
    file and creates a missing one, which fails where no file can be
    created. *)
Definition append_file (filepath : string) (new_content : string) : M unit :=
  fun w =>
    match files w !! filepath with
    | Some old =>
        (log_open filepath ModeA ;; store filepath old new_content) w
    | None =>
        if creatable w filepath then
          (log_open filepath ModeA ;;
           set_file filepath EmptyString ;;
           store filepath EmptyString new_content) w
        else (Raise (FileNotFoundError filepath), w)
    end.

(** The module docstring, printed as the usage message. *)
Definition doc : string :=
  nl +:+ "A tool to edit files by line number ranges or pattern matching." +:+ nl
  +:+ "Usage:" +:+ nl
  +:+ "  python edit_file.py <file> replace <start_line> <end_line> <new_content>" +:+ nl
  +:+ "  python edit_file.py <file> insert <after_line> <new_content>" +:+ nl
  +:+ "  python edit_file.py <file> append <new_content>" +:+ nl
  +:+ "  python edit_file.py <file> delete <start_line> <end_line>" +:+ nl
  +:+ "  python edit_file.py <file> show <start_line> <end_line>" +:+ nl.

(** The text argument at position [k], or all of standard input. *)
Definition text_arg (argv : list string) (k : nat) : M string :=
  if (k <? length argv)%nat then arg argv k else stdin_read.

(** [lines[:start] + new_lines + lines[end:]] *)
Definition splice (lines : list string) (start stop : Z) (new_lines : list string)
  : list string :=
  upto start lines ++ new_lines ++ from stop lines.

(** Lines 30-36. *)
Definition show_line (p : Z * string) : string :=
  PyInt.fmt4d p.1 +:+ ": " +:+ p.2.

Definition main_show (argv : list string) (filepath : string) : M unit :=
  do lines <- read_file filepath;
  do start <- (if (3 <? length argv)%nat
               then (do n <- int_arg argv 3; ret (n - 1)) else ret 0);
  do stop <- (if (4 <? length argv)%nat
              then int_arg argv 4 else ret (Z.of_nat (length lines)));
  for_each (enumerate (start + 1) (slice start stop lines))
           (fun p => write_out (show_line p)).

(** Lines 38-51. *)
Definition main_replace (argv : list string) (filepath : string) : M unit :=
  do start <- (do n <- int_arg argv 3; ret (n - 1));
  do stop <- int_arg argv 4;
  do new_content <- text_arg argv 5;
  do lines <- read_file filepath;
  let new_lines := split_replace new_content in
  write_file filepath (splice lines start stop new_lines) ;;
  print ("Replaced lines " +:+ pretty (start + 1) +:+ "-" +:+ pretty stop
         +:+ " with " +:+ pretty (Z.of_nat (length new_lines)) +:+ " lines").

(** Lines 53-62. *)
Definition main_insert (argv : list string) (filepath : string) : M unit :=
  do after_line <- int_arg argv 3;
  do new_content <- text_arg argv 4;
  do lines <- read_file filepath;
  let new_lines := split_insert new_content in
  write_file filepath (splice lines after_line after_line new_lines) ;;
  print ("Inserted " +:+ pretty (Z.of_nat (length new_lines))
         +:+ " lines after line " +:+ pretty after_line).

(** Lines 64-69. *)
Definition main_append (argv : list string) (filepath : string) : M unit :=
  do new_content <- text_arg argv 3;
  append_file filepath new_content ;;
  print ("Appended content to " +:+ filepath).

(** Lines 71-78. *)
Definition main_delete (argv : list string) (filepath : string) : M unit :=
  do start <- (do n <- int_arg argv 3; ret (n - 1));
  do stop <- int_arg argv 4;
  do lines <- read_file filepath;
  write_file filepath (splice lines start stop []) ;;
  print ("Deleted lines " +:+ pretty (start + 1) +:+ "-" +:+ pretty stop).

(** Lines 22-78. *)
Definition main (argv : list string) : M unit :=
  if (length argv <? 3)%nat then
    print doc ;; raise (SystemExit 1)
  else
    do filepath <- arg argv 1;
    do action <- arg argv 2;
    if String.eqb action "show" then main_show argv filepath
    else if String.eqb action "replace" then main_replace argv filepath
    else if String.eqb action "insert" then main_insert argv filepath
    else if String.eqb action "append" then main_append argv filepath
    else if String.eqb action "delete" then main_delete argv filepath
    else ret tt.

(** ** Vocabulary of the properties *)

(** A string without newline: what a fragment of [split] looks like. *)
Fixpoint contains_nl (s : string) : bool :=
  match s with
  | EmptyString => false
  | String c s' => Ascii.eqb c LF || contains_nl s'
  end.

(** A line is terminated when it ends in a newline. *)
Definition terminated (l : string) : bool := endswith l nl.

(** Some fragment of the text before the last one is empty, that is, the
    text holds a blank line. *)
Definition blank_inside (text : string) : bool :=
  existsb (fun l => negb (truthy l)) (init (split_nl text)).

(** The line with 1-based ordinal [i], and the lines with ordinals
    [a..b]. *)
Definition line (doc : list string) (i : Z) : option string :=
  doc !! Z.to_nat (i - 1).
Definition lines_between (a b : Z) (doc : list string) : list string :=
  slice (a - 1) b doc.

(** The sample texts ["a\nb\nc"] and ["a\nb\nc\n"]. *)
Definition abc : string := "a" +:+ nl +:+ "b" +:+ nl +:+ "c".
Definition abc_nl : string := abc +:+ nl.

(** A six-line document and a three-line document holding a blank line. *)
Definition doc6 : list string :=
  ["l1" +:+ nl; "l2" +:+ nl; "l3" +:+ nl; "l4" +:+ nl; "l5" +:+ nl; "l6" +:+ nl].
Definition blank_doc : list string := ["a" +:+ nl; nl; "b" +:+ nl].

(** Deleting the lines [s..e] and then handing their text back: to the
    insert branch after line [s-1], or to the replace branch with the
    empty range that starts at [s]. *)
Definition delete_then_insert (doc : list string) (s e : Z) : list string :=
  splice (splice doc (s - 1) e []) (s - 1) (s - 1)
         (split_insert (join (lines_between s e doc))).
Definition delete_then_replace (doc : list string) (s e : Z) : list string :=
  splice (splice doc (s - 1) e []) (s - 1) (s - 1)
         (split_replace (join (lines_between s e doc))).

(** The exception is the failure of a write to the device. *)
Definition is_write_failure (e : exn) : bool :=
  match e with OSError _ => true | _ => false end.

Definition is_system_exit (e : exn) : bool :=
  match e with SystemExit _ => true | _ => false end.

(** The actions [main] knows, and those among them that change the file. *)
Definition edit_action (action : string) : bool :=
  String.eqb action "replace" || String.eqb action "insert"
  || String.eqb action "append" || String.eqb action "delete".
Definition known_action (action : string) : bool :=
  String.eqb action "show" || edit_action action.

(** The device accepts [text] in full. *)
Definition fits (text : string) (w : world) : bool :=
  match room w with
  | None => true
  | Some r => (String.length text <=? r)%nat
  end.

(** A world whose only file ["f"] holds [text], on a device with [r]. *)
Definition world_of (text : string) (r : option nat) : world :=
  World {[ "f" := text ]} "" "" r [] (fun path => negb (String.eqb path "")).

(** What every run of a branch of [main] satisfies, from the world [w]:
    a normal return of an editing branch has printed one report line; an
    exception is never [SystemExit], has printed nothing, has left the
    files alone unless it is a write failure, and is no write failure on
    a device without limit. *)
Definition outcome_ok (edits : bool) (w : world) (rw : result unit * world)
  : Prop :=
  match rw.1 with
  | Return _ =>
      if edits then exists report, stdout rw.2 = stdout w +:+ report +:+ nl
      else True
  | Raise e =>
      is_system_exit e = false /\ stdout rw.2 = stdout w /\
      (is_write_failure e = false -> files rw.2 = files w) /\
      (room w = None -> is_write_failure e = false)
  end.

(** ** Proof automation for runs of [main] *)

Ltac unfold_run :=
  cbv [main_show main_replace main_insert main_append main_delete read_file write_file append_file
       text_arg int_arg arg log_open set_file store stdin_read print
       write_out bind ret raise].

Ltac unfold_run_in H :=
  cbv [main_show main_replace main_insert main_append main_delete read_file write_file append_file
       text_arg int_arg arg log_open set_file store stdin_read print
       write_out bind ret raise] in H.

(** The show branch keeps its loop folded, to be rewritten with
    [for_each_write_out]. *)
Ltac unfold_show :=
  cbv [main_show read_file int_arg arg log_open bind ret raise].

(** Case analysis on the innermost scrutinee that blocks evaluation. *)
Ltac break_goal :=
  match goal with
  | |- context [match ?x with _ => _ end] =>
      lazymatch x with
      | context [match _ with _ => _ end] => fail
      | _ => destruct x eqn:?
      end
  end.

Ltac break_hyp H :=
  match type of H with
  | context [match ?x with _ => _ end] =>
      lazymatch x with
      | context [match _ with _ => _ end] => fail
      | _ => destruct x eqn:?
      end
  end.

Ltac project := cbn [fst snd files stdin stdout room opened creatable].

Ltac solve_outcome :=
  unfold outcome_ok; unfold_run; repeat (break_goal; project);
  solve [ done | by eexists | repeat split; (done || congruence) ].

(** ** Vocabulary of the further properties *)

(** A proper line holds exactly one newline, as its last character. *)
Fixpoint proper_line (l : string) : bool :=
  match l with
  | EmptyString => false
  | String c l' =>
      if Ascii.eqb c LF then negb (truthy l') else proper_line l'
  end.

(** The text holds a carriage return. *)
Fixpoint contains_cr (s : string) : bool :=
  match s with
  | EmptyString => false
  | String c s' => Ascii.eqb c CR || contains_cr s'
  end.

(** The number of newlines in a text. *)
Fixpoint count_nl (s : string) : nat :=
  match s with
  | EmptyString => 0
  | String c s' => (if Ascii.eqb c LF then 1 else 0) + count_nl s'
  end.


(** The three actions that take line numbers and rewrite the file. *)
Definition rewriting_action (action : string) : bool :=
  String.eqb action "replace" || String.eqb action "insert"
  || String.eqb action "delete".

(** Lines that a text file can hold: every line but the last is proper,
    and the last is proper or a fragment without newline that is not
    empty. *)
Fixpoint readable (ls : list string) : bool :=
  match ls with
  | [] => true
  | l :: ls' =>
      match ls' with
      | [] => proper_line l || (truthy l && negb (contains_nl l))
      | _ :: _ => proper_line l && readable ls'
      end
  end.

(** The document stored at a path: the lines of the file's text, cut
    behind every newline and otherwise as they are stored. *)
Definition stored_doc (w : world) (path : string) : list string :=
  match files w !! path with
  | Some text => readlines text
  | None => []
  end.

(** The text argument that follows the operands, or else standard input. *)
Definition supplied_text (rest : list string) (w : world) : string :=
  match rest with
  | text :: _ => text
  | [] => stdin w
  end.

(** * Properties *)

(** ** Strings and lists *)

Section StringFacts.

Lemma app_cons (c : ascii) (a b : string) : String c a +:+ b = String c (a +:+ b).
Proof. done. Qed.

Lemma app_empty_l (s : string) : "" +:+ s = s.
Proof. done. Qed.

Lemma app_empty_r (s : string) : s +:+ "" = s.
Proof. induction s as [|c s IH]; [done|]. by rewrite app_cons, IH. Qed.

Lemma app_assoc (a b c : string) : (a +:+ b) +:+ c = a +:+ (b +:+ c).
Proof. induction a as [|x a IH]; [done|]. by rewrite !app_cons, IH. Qed.

Lemma app_eq_empty (a b : string) : a +:+ b = "" -> a = "" /\ b = "".
Proof. destruct a; [done|discriminate]. Qed.

Lemma join_cons (l : string) (ls : list string) : join (l :: ls) = l +:+ join ls.
Proof. done. Qed.

Lemma join_app (xs ys : list string) : join (xs ++ ys) = join xs +:+ join ys.
Proof.
  induction xs as [|x xs IH]; [done|].
  rewrite <- app_comm_cons, !join_cons, IH. by rewrite app_assoc.
Qed.

Lemma join_singleton (l : string) : join [l] = l.
Proof. rewrite join_cons. apply app_empty_r. Qed.

End StringFacts.

Section SplitFacts.

Lemma endswith_app_nl (a b : string) :
  b <> "" -> endswith (a +:+ b) nl = endswith b nl.
Proof.
  intros Hb. induction a as [|c a IH]; [done|].
  rewrite app_cons. cbn [endswith]. rewrite IH.
  destruct (String.eqb_spec (String c (a +:+ b)) nl) as [E|_]; [|done].
  unfold nl in E. injection E as _ E. by apply app_eq_empty in E as [_ ?].
Qed.

Lemma terminated_add_nl (p : string) : terminated (add_nl p) = true.
Proof.
  unfold terminated, add_nl. rewrite endswith_app_nl by done. done.
Qed.

Lemma endswith_no_nl (s : string) : contains_nl s = false -> endswith s nl = false.
Proof.
  induction s as [|c s IH]; [done|]. cbn [contains_nl endswith].
  intros [Hc Hs]%orb_false_iff. rewrite IH by done.
  destruct (String.eqb_spec (String c s) nl) as [E|_]; [|done].
  unfold nl in E. injection E as -> _. by rewrite Ascii.eqb_refl in Hc.
Qed.

(** [split] cuts the text into newline-free fragments, and joining them
    with newlines gives the text back. *)
Lemma split_nl_spec (s : string) :
  exists ps lst,
    split_nl s = ps ++ [lst] /\ s = join (map add_nl ps) +:+ lst /\
    Forall (fun p => contains_nl p = false) ps /\ contains_nl lst = false.
Proof.
  induction s as [|c s (ps & lst & Hs & Hj & Hps & Hlst)].
  { by exists [], "". }
  cbn [split_nl]. destruct (Ascii.eqb_spec c LF) as [->|Hc%Ascii.eqb_neq].
  - exists ("" :: ps), lst. rewrite Hs. repeat split; [|by constructor|done].
    cbn [map]. rewrite join_cons. unfold add_nl at 1, nl.
    by rewrite app_empty_l, !app_cons, app_empty_l, <- Hj.
  - rewrite Hs. destruct ps as [|p ps]; cbn [app].
    + exists [], (String c lst). cbn [map] in *.
      change (join []) with "" in *. rewrite app_empty_l in *. subst s.
      repeat split; [done|]. cbn [contains_nl]. by rewrite Hc, Hlst.
    + exists (String c p :: ps), lst. inversion_clear Hps as [|? ? Hp Hps'].
      repeat split; [| |done].
      * cbn [map] in *. rewrite join_cons in *. unfold add_nl at 1.
        unfold add_nl at 1 in Hj. rewrite !app_cons. by rewrite <- Hj.
      * constructor; [|done]. cbn [contains_nl]. by rewrite Hc, Hp.
Qed.

(** Conversely, newline-free fragments are recovered by [split]. *)
Lemma split_nl_fragment (p rest : string) :
  contains_nl p = false ->
  split_nl (p +:+ nl +:+ rest) = p :: split_nl rest.
Proof.
  induction p as [|c p IH]; [done|]. cbn [contains_nl].
  intros [Hc Hp]%orb_false_iff. rewrite app_cons. cbn [split_nl].
  rewrite Hc, IH by done. done.
Qed.

Lemma split_nl_last (lst : string) :
  contains_nl lst = false -> split_nl lst = [lst].
Proof.
  induction lst as [|c p IH]; [done|]. cbn [contains_nl].
  intros [Hc Hp]%orb_false_iff. cbn [split_nl]. rewrite Hc, IH by done. done.
Qed.

Lemma split_nl_join (ps : list string) (lst : string) :
  Forall (fun p => contains_nl p = false) ps -> contains_nl lst = false ->
  split_nl (join (map add_nl ps) +:+ lst) = ps ++ [lst].
Proof.
  intros Hps Hlst. induction Hps as [|p ps Hp _ IH].
  { by apply split_nl_last. }
  cbn [map]. rewrite join_cons. unfold add_nl at 1. rewrite !app_assoc.
  rewrite split_nl_fragment by done. by rewrite IH.
Qed.

Lemma clamp_in_range (n : nat) (i : Z) :
  0 <= i <= Z.of_nat n -> clamp n i = Z.to_nat i.
Proof. intros Hi. unfold clamp. destruct (Z.ltb_spec i 0); lia. Qed.

Lemma clamp_le (n : nat) (i : Z) : (clamp n i <= n)%nat.
Proof. unfold clamp. destruct (Z.ltb_spec i 0); lia. Qed.

Lemma init_snoc {A} (l : list A) (x : A) : init (l ++ [x]) = l.
Proof.
  unfold init, upto. apply take_app_length'.
  rewrite length_app. cbn [length]. unfold clamp. cbn. lia.
Qed.

Lemma last_or_snoc {A} (l : list A) (x d : A) : last_or d (l ++ [x]) = x.
Proof. apply last_last. Qed.

Lemma terminated_join (ps : list string) :
  ps <> [] -> endswith (join (map add_nl ps)) nl = true.
Proof.
  induction ps as [|p ps IH]; [done|]. intros _. cbn [map]. rewrite join_cons.
  destruct ps as [|q ps].
  - change (join (map add_nl [])) with "". rewrite app_empty_r.
    apply terminated_add_nl.
  - rewrite endswith_app_nl; [by apply IH|].
    cbn [map]. rewrite join_cons. unfold add_nl, nl.
    intros [[_ E]%app_eq_empty _]%app_eq_empty. discriminate.
Qed.

(** The lines produced by the replace branch, in terms of the fragments. *)
Lemma split_replace_spec (s : string) (ps : list string) (lst : string) :
  split_nl s = ps ++ [lst] -> s = join (map add_nl ps) +:+ lst ->
  contains_nl lst = false ->
  split_replace s = map add_nl (ps ++ (if truthy lst then [lst] else [])).
Proof.
  intros Hs Hj Hlst. unfold split_replace. rewrite Hs, init_snoc, last_or_snoc.
  destruct lst as [|c lst].
  - cbn [truthy]. rewrite app_nil_r. by destruct (negb _).
  - cbn [truthy]. rewrite map_app. subst s.
    rewrite endswith_app_nl, endswith_no_nl by done. done.
Qed.

Lemma index_blank_last (ps : list string) :
  Forall (fun p => truthy p = true) ps ->
  index "" (ps ++ [""]) = Some (length ps).
Proof.
  induction 1 as [|p ps Hp _ IH]; [done|]. cbn [app index length].
  destruct p; [done|]. cbn [String.eqb]. by rewrite IH.
Qed.

(** The insert branch produces the same lines when no fragment before
    the last one is empty. *)
Lemma split_insert_spec (s : string) (ps : list string) (lst : string) :
  split_nl s = ps ++ [lst] -> Forall (fun p => truthy p = true) ps ->
  split_insert s = map add_nl (ps ++ (if truthy lst then [lst] else [])).
Proof.
  intros Hs Hps. unfold split_insert. rewrite Hs. f_equal.
  rewrite List.filter_app. f_equal.
  - apply forallb_filter_id, forallb_forall. intros p Hin.
    unfold insert_keep. rewrite Forall_forall in Hps.
    rewrite Hps; [done|]. by apply list_elem_of_In.
  - cbn [List.filter]. unfold insert_keep. destruct lst as [|c lst]; [|done].
    cbn [truthy orb]. rewrite index_blank_last by done.
    rewrite length_app. cbn [length].
    destruct (Z.ltb_spec (Z.of_nat (length ps))
                (Z.of_nat (length ps + 1) - 1)); [lia|done].
Qed.

Lemma terminated_map_add_nl (ps : list string) :
  Forall (fun l => terminated l = true) (map add_nl ps).
Proof.
  apply Forall_forall. intros l [p [-> _]]%list_elem_of_fmap.
  apply terminated_add_nl.
Qed.

End SplitFacts.

Section SplitMore.

Lemma index_blank_first (ps rest : list string) :
  "" ∈ ps ->
  exists i, index "" (ps ++ rest) = Some i /\ (i < length ps)%nat.
Proof.
  induction ps as [|p ps IH]; [by intros ?%elem_of_nil|].
  intros Hin. cbn [app index length]. destruct (String.eqb_spec p "") as [->|Hp].
  - exists 0%nat. split; [done|lia].
  - apply elem_of_cons in Hin as [?|Hin]; [done|].
    destruct (IH Hin) as (i & -> & Hi). exists (S i). split; [done|lia].
Qed.

Lemma length_split_nl (s : string) : length (split_nl s) = S (count_nl s).
Proof.
  induction s as [|c s IH]; [done|]. cbn [split_nl count_nl].
  destruct (Ascii.eqb c LF); cbn [length]; [by rewrite IH|].
  destruct (split_nl s); [done|]. cbn [length] in *. lia.
Qed.

(** The text is empty or ends in a newline exactly when the fragment
    behind its last newline is empty. *)
Lemma last_fragment_empty (text : string) (ps : list string) (lst : string) :
  text = join (map add_nl ps) +:+ lst -> contains_nl lst = false ->
  terminated text || negb (truthy text) = negb (truthy lst).
Proof.
  intros Hj Hlst. unfold terminated. destruct lst as [|c lst]; cbn [truthy negb].
  - rewrite app_empty_r in Hj. destruct ps as [|p ps]; [by subst text|].
    assert (endswith text nl = true) as ->; [|done].
    rewrite Hj. by apply terminated_join.
  - assert (endswith text nl = false) as ->.
    { rewrite Hj, endswith_app_nl by done. by apply endswith_no_nl. }
    assert (truthy text = true) as ->; [|done].
    rewrite Hj. by destruct (join (map add_nl ps)).
Qed.

Lemma join_split_replace (text : string) :
  join (split_replace text)
  = (if terminated text || negb (truthy text) then text else text +:+ nl).
Proof.
  destruct (split_nl_spec text) as (ps & lst & Hs & Hj & Hps & Hlst).
  rewrite (split_replace_spec text ps lst Hs Hj Hlst).
  rewrite (last_fragment_empty text ps lst Hj Hlst), map_app, join_app.
  destruct lst as [|c lst]; cbn [truthy negb map].
  - change (join []) with "". rewrite !app_empty_r in *. done.
  - rewrite join_singleton. unfold add_nl at 2. by rewrite <- app_assoc, <- Hj.
Qed.

(** The lines of the insert branch, in terms of those of the replace
    branch. *)
Lemma split_insert_exact (text : string) :
  split_insert text
  = split_replace text
    ++ (if blank_inside text && terminated text then [nl] else []).
Proof.
  destruct (split_nl_spec text) as (ps & lst & Hs & Hj & Hps & Hlst).
  rewrite (split_replace_spec text ps lst Hs Hj Hlst).
  pose proof (last_fragment_empty text ps lst Hj Hlst) as Hl.
  unfold blank_inside. rewrite Hs, init_snoc.
  destruct (existsb _ ps) eqn:Hb; cbn [andb].
  - apply existsb_exists in Hb as (p & Hp%list_elem_of_In & Ep).
    destruct p; [|done]. clear Ep.
    assert (truthy text = true) as Ht.
    { rewrite Hj. apply list_elem_of_split in Hp as (l1 & l2 & ->).
      rewrite map_app, join_app. cbn [map]. rewrite join_cons.
      by destruct (join (map add_nl l1)). }
    rewrite Ht, orb_false_r in Hl. rewrite Hl.
    unfold split_insert. rewrite Hs.
    rewrite forallb_filter_id.
    + destruct lst; cbn [truthy negb]; [|by rewrite app_nil_r].
      by rewrite app_nil_r, map_app.
    + apply forallb_forall. intros x _. unfold insert_keep.
      destruct x; [|done]. cbn [truthy orb].
      destruct (index_blank_first ps [lst] Hp) as (i & -> & Hi).
      rewrite length_app. cbn [length]. apply Z.ltb_lt. lia.
  - rewrite app_nil_r. apply split_insert_spec; [done|].
    apply Forall_forall. intros p Hp. destruct (truthy p) eqn:Ep; [done|].
    exfalso. assert (existsb (fun l => negb (truthy l)) ps = true) as Hx;
      [|congruence].
    apply existsb_exists. exists p. rewrite Ep. split; [|done].
    by apply list_elem_of_In.
Qed.

End SplitMore.

(** ** Text splitting *)

(** C1, as the specification words it, fails on both splitters: the last
    fragment of ["a\nb\nc"] is given a newline as well. *)
Lemma final_fragment_is_terminated :
  ~ (exists l1 l2 l3, split_replace abc = [l1; l2; l3] /\
       terminated l1 = true /\ terminated l2 = true /\ terminated l3 = false) /\
  ~ (exists l1 l2 l3, split_insert abc = [l1; l2; l3] /\
       terminated l1 = true /\ terminated l2 = true /\ terminated l3 = false).
Proof.
  split; intros (l1 & l2 & l3 & E & _ & _ & H3);
    vm_compute in E; injection E as <- <- <-; vm_compute in H3; discriminate.
Qed.

(** C1 (amended): both splitters terminate every line they produce, the
    final fragment included.  ["a\nb\nc"] and ["a\nb\nc\n"] both give the
    three lines ["a\n"], ["b\n"], ["c\n"].  The lines of the replace branch
    concatenate to the text itself when it is empty or ends in a newline,
    and to the text followed by one newline otherwise.  The insert branch
    yields the same lines, unless the text both holds a blank line and
    ends in a newline. *)
Theorem split_terminates_every_line (text : string) :
  Forall (fun l => terminated l = true) (split_replace text) /\
  Forall (fun l => terminated l = true) (split_insert text) /\
  join (split_replace text)
    = (if terminated text || negb (truthy text) then text else text +:+ nl) /\
  (blank_inside text && terminated text = false ->
   split_insert text = split_replace text) /\
  split_replace abc = ["a" +:+ nl; "b" +:+ nl; "c" +:+ nl] /\
  split_insert abc = ["a" +:+ nl; "b" +:+ nl; "c" +:+ nl] /\
  split_replace abc_nl = ["a" +:+ nl; "b" +:+ nl; "c" +:+ nl] /\
  split_insert abc_nl = ["a" +:+ nl; "b" +:+ nl; "c" +:+ nl].
Proof.
  destruct (split_nl_spec text) as (ps & lst & Hs & Hj & Hps & Hlst).
  pose proof (split_replace_spec text ps lst Hs Hj Hlst) as Hr.
  split; [rewrite Hr; apply terminated_map_add_nl|].
  split; [apply terminated_map_add_nl|].
  split; [apply join_split_replace|split; [|by vm_compute]].
  intros Hb. by rewrite split_insert_exact, Hb, app_nil_r.
Qed.

Lemma split_terminates_every_line_witness :
  let text := "x" +:+ nl +:+ nl +:+ "y" in
  blank_inside text && terminated text = false /\
  split_insert text = split_replace text /\
  split_insert text = ["x" +:+ nl; nl; "y" +:+ nl].
Proof.
  cbv zeta. split; [reflexivity|]. split; [|reflexivity].
  apply (proj1 (proj2 (proj2 (proj2 (split_terminates_every_line
                                       ("x" +:+ nl +:+ nl +:+ "y")))))).
  reflexivity.
Defined.

(** ** Splicing *)

Section SpliceFacts.
Context (doc new : list string).

(** What lies before the cut and behind it is kept, whatever the cut. *)
Lemma cut_frame (n m : nat) :
  (n <= length doc)%nat ->
  let result := take n doc ++ new ++ drop m doc in
  (forall k, (k < n)%nat -> result !! k = doc !! k) /\
  (forall k, result !! (n + length new + k)%nat = doc !! (m + k)%nat).
Proof.
  intros Hn result. subst result. split; intros k.
  - intros Hk. rewrite lookup_app_l by (rewrite length_take; lia).
    by apply lookup_take_lt.
  - rewrite lookup_app_r by (rewrite length_take; lia).
    rewrite lookup_app_r by (rewrite length_take; lia).
    rewrite lookup_drop. f_equal. rewrite length_take. lia.
Qed.

Lemma splice_cut (start stop : Z) :
  splice doc start stop new
  = take (clamp (length doc) start) doc ++ new ++ drop (clamp (length doc) stop) doc.
Proof. done. Qed.

Lemma splice_range (s e : Z) :
  1 <= s -> s <= e + 1 -> e <= Z.of_nat (length doc) ->
  splice doc (s - 1) e new
  = take (Z.to_nat (s - 1)) doc ++ new ++ drop (Z.to_nat e) doc.
Proof.
  intros H1 H2 H3. by rewrite splice_cut, !clamp_in_range by lia.
Qed.

Lemma splice_before (s e i : Z) :
  1 <= s -> s <= e + 1 -> e <= Z.of_nat (length doc) -> 1 <= i < s ->
  line (splice doc (s - 1) e new) i = line doc i.
Proof.
  intros H1 H2 H3 Hi. rewrite splice_range by done. unfold line.
  apply (cut_frame (Z.to_nat (s - 1)) (Z.to_nat e)); lia.
Qed.

Lemma splice_behind (s e j : Z) :
  1 <= s -> s <= e + 1 -> e <= Z.of_nat (length doc) ->
  e < j <= Z.of_nat (length doc) ->
  line (splice doc (s - 1) e new) (j - (e - s + 1) + Z.of_nat (length new))
  = line doc j.
Proof.
  intros H1 H2 H3 Hj. rewrite splice_range by done. unfold line.
  destruct (cut_frame (Z.to_nat (s - 1)) (Z.to_nat e)) as [_ Hb]; [lia|].
  specialize (Hb (Z.to_nat (j - e - 1))). cbv zeta in Hb.
  replace (Z.to_nat (j - (e - s + 1) + Z.of_nat (length new) - 1))
    with (Z.to_nat (s - 1) + length new + Z.to_nat (j - e - 1))%nat by lia.
  rewrite Hb. f_equal. lia.
Qed.

Lemma splice_at_before (a i : Z) :
  1 <= i <= Z.of_nat (clamp (length doc) a) ->
  line (splice doc a a new) i = line doc i.
Proof.
  intros Hi. rewrite splice_cut. unfold line.
  apply (cut_frame (clamp (length doc) a) (clamp (length doc) a));
    [apply clamp_le|lia].
Qed.

Lemma splice_at_behind (a j : Z) :
  Z.of_nat (clamp (length doc) a) < j ->
  line (splice doc a a new) (j + Z.of_nat (length new)) = line doc j.
Proof.
  intros Hj. rewrite splice_cut. unfold line.
  destruct (cut_frame (clamp (length doc) a) (clamp (length doc) a))
    as [_ Hb]; [apply clamp_le|].
  specialize (Hb (Z.to_nat (j - 1) - clamp (length doc) a)%nat).
  cbv zeta in Hb.
  replace (Z.to_nat (j + Z.of_nat (length new) - 1))
    with (clamp (length doc) a + length new
          + (Z.to_nat (j - 1) - clamp (length doc) a))%nat by lia.
  rewrite Hb. f_equal. lia.
Qed.

End SpliceFacts.

(** On the line sequence, replace and delete with a range [s..e] that
    satisfies the range invariant keep every line before [s] and every
    line behind [e], moved by the change in length only; insert keeps
    every line, those behind the insertion point moved by the number of
    inserted lines. *)
Lemma splice_keeps_untouched_lines
    (doc : list string) (text : string) (s e a : Z) :
  1 <= s -> s <= e + 1 -> e <= Z.of_nat (length doc) ->
  let replaced := splice doc (s - 1) e (split_replace text) in
  let deleted := splice doc (s - 1) e [] in
  let inserted := splice doc a a (split_insert text) in
  let n := Z.of_nat (clamp (length doc) a) in
  (forall i, 1 <= i < s ->
     line replaced i = line doc i /\ line deleted i = line doc i) /\
  (forall j, e < j <= Z.of_nat (length doc) ->
     line replaced (j - (e - s + 1) + Z.of_nat (length (split_replace text)))
       = line doc j /\
     line deleted (j - (e - s + 1)) = line doc j) /\
  (forall i, 1 <= i <= n -> line inserted i = line doc i) /\
  (forall j, n < j <= Z.of_nat (length doc) ->
     line inserted (j + Z.of_nat (length (split_insert text))) = line doc j) /\
  (0 <= a <= Z.of_nat (length doc) -> n = a).
Proof.
  intros H1 H2 H3 replaced deleted inserted n.
  subst replaced deleted inserted n. repeat split.
  - by apply splice_before.
  - by apply splice_before.
  - by apply splice_behind.
  - rewrite <- (splice_behind doc [] s e j) by done. f_equal. cbn [length]. lia.
  - intros i Hi. by apply splice_at_before.
  - intros j Hj. apply splice_at_behind. lia.
  - intros Ha. rewrite clamp_in_range by done. lia.
Qed.

(** C3, as the specification words it, fails: after replacing lines 2..4
    of six lines by two lines, line 3 is the second new line, and the
    lines 3..5 are not the original lines 5..6. *)
Lemma replaced_line_three_is_new :
  ~ (forall (doc : list string) (text : string),
       length doc = 6%nat -> length (split_replace text) = 2%nat ->
       let result := splice doc (2 - 1) 4 (split_replace text) in
       length result = 5%nat /\ line result 1 = line doc 1 /\
       lines_between 3 5 result = lines_between 5 6 doc) /\
  line (splice doc6 (2 - 1) 4 (split_replace ("X" +:+ nl +:+ "Y" +:+ nl))) 3
    = Some ("Y" +:+ nl) /\
  line doc6 5 = Some ("l5" +:+ nl) /\ line doc6 6 = Some ("l6" +:+ nl).
Proof.
  split; [|by vm_compute]. intros H.
  specialize (H doc6 ("X" +:+ nl +:+ "Y" +:+ nl) eq_refl eq_refl).
  destruct H as (_ & _ & H). vm_compute in H. discriminate.
Qed.

(** C3 (amended): replacing lines 2..4 of a six-line document by a
    two-line block gives five lines: line 1 is the original line 1, lines
    2..3 are the block, and lines 4..5 are the original lines 5..6. *)
Theorem replace_count_contract (doc : list string) (text : string) :
  length doc = 6%nat -> length (split_replace text) = 2%nat ->
  let result := splice doc (2 - 1) 4 (split_replace text) in
  length result = 5%nat /\ line result 1 = line doc 1 /\
  lines_between 2 3 result = split_replace text /\
  lines_between 4 5 result = lines_between 5 6 doc.
Proof.
  intros Hd Hn.
  destruct doc as [|d1 [|d2 [|d3 [|d4 [|d5 [|d6 [|]]]]]]]; try discriminate.
  destruct (split_replace text) as [|n1 [|n2 [|]]]; try discriminate.
  by vm_compute.
Qed.

Lemma replace_count_contract_witness :
  (length doc6 = 6%nat /\
   length (split_replace ("X" +:+ nl +:+ "Y")) = 2%nat) /\
  length (splice doc6 (2 - 1) 4 (split_replace ("X" +:+ nl +:+ "Y"))) = 5%nat.
Proof.
  split; [split; reflexivity|].
  apply (replace_count_contract doc6 ("X" +:+ nl +:+ "Y")); reflexivity.
Defined.

(** ** Deleting lines and inserting them again *)

Section RoundTrip.
Context (doc : list string) (s e : Z).
Hypothesis (Hs : 1 <= s) (Hse : s <= e + 1) (He : e <= Z.of_nat (length doc)).

Lemma lines_between_range :
  lines_between s e doc
  = take (Z.to_nat e - Z.to_nat (s - 1)) (drop (Z.to_nat (s - 1)) doc).
Proof.
  unfold lines_between, slice. by rewrite !clamp_in_range by lia.
Qed.

Lemma doc_three_parts :
  doc = take (Z.to_nat (s - 1)) doc ++ lines_between s e doc
        ++ drop (Z.to_nat e) doc.
Proof.
  rewrite lines_between_range.
  rewrite <- (take_drop (Z.to_nat (s - 1)) doc) at 1. f_equal.
  rewrite <- (take_drop (Z.to_nat e - Z.to_nat (s - 1))
                (drop (Z.to_nat (s - 1)) doc)) at 1.
  f_equal. rewrite drop_drop. f_equal. lia.
Qed.

(** Putting back, at the place of the cut, exactly the lines that were
    cut restores the document. *)
Lemma put_back (new : list string) :
  new = lines_between s e doc ->
  splice (splice doc (s - 1) e []) (s - 1) (s - 1) new = doc.
Proof.
  intros ->. rewrite (splice_range doc []) by done. cbn [app].
  rewrite splice_cut.
  assert (clamp (length (take (Z.to_nat (s - 1)) doc ++ drop (Z.to_nat e) doc))
            (s - 1) = length (take (Z.to_nat (s - 1)) doc)) as ->.
  { rewrite clamp_in_range; rewrite ?length_app, length_take; lia. }
  rewrite take_app_length, drop_app_length. symmetry. apply doc_three_parts.
Qed.

(** The replace branch gives back the lines it is handed, as long as
    they are terminated lines. *)
Lemma delete_then_replace_restores (ps : list string) :
  lines_between s e doc = map add_nl ps ->
  Forall (fun p => contains_nl p = false) ps ->
  delete_then_replace doc s e = doc.
Proof.
  intros Hmid Hps. apply put_back. rewrite Hmid.
  rewrite <- (app_empty_r (join _)).
  rewrite (split_replace_spec _ ps "");
    [by rewrite app_nil_r|by apply split_nl_join|done|done].
Qed.

(** The insert branch does so when, in addition, none of the lines is
    blank. *)
Lemma delete_then_insert_restores (ps : list string) :
  lines_between s e doc = map add_nl ps ->
  Forall (fun p => contains_nl p = false) ps ->
  Forall (fun p => truthy p = true) ps ->
  delete_then_insert doc s e = doc.
Proof.
  intros Hmid Hps Hne. apply put_back. rewrite Hmid.
  rewrite <- (app_empty_r (join _)).
  rewrite (split_insert_spec _ ps "");
    [by rewrite app_nil_r|by apply split_nl_join|done].
Qed.

End RoundTrip.

(** ** Running the program *)

Lemma main_usage (argv : list string) (w : world) :
  (length argv < 3)%nat ->
  main argv w
  = (Raise (SystemExit 1),
     World (files w) (stdin w) (stdout w +:+ doc +:+ nl) (room w) (opened w)
           (creatable w)).
Proof.
  intros H. unfold main. destruct (Nat.ltb_spec (length argv) 3); [done|lia].
Qed.

Lemma main_dispatch (prog filepath action : string) (rest : list string)
    (w : world) :
  let argv := prog :: filepath :: action :: rest in
  main argv w
  = (if String.eqb action "show" then main_show argv filepath
     else if String.eqb action "replace" then main_replace argv filepath
     else if String.eqb action "insert" then main_insert argv filepath
     else if String.eqb action "append" then main_append argv filepath
     else if String.eqb action "delete" then main_delete argv filepath
     else ret tt) w.
Proof. done. Qed.

Lemma for_each_write_out {A} (f : A -> string) (l : list A) (w : world) :
  for_each l (fun p => write_out (f p)) w
  = (Return tt,
     World (files w) (stdin w) (stdout w +:+ join (map f l)) (room w) (opened w)
           (creatable w)).
Proof.
  revert w. induction l as [|x l IH]; intros w.
  - cbn [for_each map]. change (join []) with "". rewrite app_empty_r.
    by destruct w.
  - cbn [for_each map]. unfold bind at 1, write_out at 1. rewrite IH.
    cbn [files stdin stdout room opened]. by rewrite join_cons, app_assoc.
Qed.

(** C10: with an action that [main] does not know, nothing happens: no
    file is opened, standard input is not read, nothing is printed, the
    files are what they were, and the exit status is zero. *)
Theorem unknown_action_is_silent
    (argv : list string) (action : string) (w : world) :
  argv !! 2%nat = Some action -> known_action action = false ->
  main argv w = (Return tt, w) /\ exit_status (main argv w).1 = 0.
Proof.
  intros Ha Hk. destruct argv as [|prog [|filepath [|action' rest]]]; try done.
  injection Ha as ->. rewrite main_dispatch.
  unfold known_action, edit_action in Hk.
  rewrite !orb_false_iff in Hk. destruct Hk as (? & ((? & ?) & ?) & ?).
  repeat match goal with H : String.eqb _ _ = false |- _ => rewrite H; clear H end.
  done.
Qed.

Lemma unknown_action_is_silent_witness :
  let argv := ["edit_file.py"; "f"; "frobnicate"; "1"; "2"] in
  (argv !! 2%nat = Some "frobnicate" /\ known_action "frobnicate" = false) /\
  main argv (world_of abc_nl None) = (Return tt, world_of abc_nl None).
Proof.
  split; [split; reflexivity|].
  apply (unknown_action_is_silent _ "frobnicate"); reflexivity.
Defined.

Lemma replace_outcome (argv : list string) (filepath : string) (w : world) :
  outcome_ok true w (main_replace argv filepath w).
Proof. solve_outcome. Qed.

Lemma insert_outcome (argv : list string) (filepath : string) (w : world) :
  outcome_ok true w (main_insert argv filepath w).
Proof. solve_outcome. Qed.

Lemma delete_outcome (argv : list string) (filepath : string) (w : world) :
  outcome_ok true w (main_delete argv filepath w).
Proof. solve_outcome. Qed.

Lemma append_outcome (argv : list string) (filepath : string) (w : world) :
  outcome_ok true w (main_append argv filepath w).
Proof. solve_outcome. Qed.

Lemma show_outcome (argv : list string) (filepath : string) (w : world) :
  outcome_ok false w (main_show argv filepath w).
Proof.
  unfold outcome_ok. unfold_show.
  repeat (first [rewrite for_each_write_out | break_goal]; project);
    solve [ done | repeat split; (done || congruence) ].
Qed.

(** Every run with at least two arguments. *)
Lemma main_outcome (argv : list string) (action : string) (w : world) :
  argv !! 2%nat = Some action ->
  outcome_ok (edit_action action) w (main argv w).
Proof.
  intros Ha. destruct argv as [|prog [|filepath [|action' rest]]]; try done.
  injection Ha as ->. rewrite main_dispatch. unfold edit_action.
  destruct (String.eqb_spec action "show") as [->|_]; [apply show_outcome|].
  destruct (String.eqb_spec action "replace") as [->|_]; [apply replace_outcome|].
  destruct (String.eqb_spec action "insert") as [->|_]; [apply insert_outcome|].
  destruct (String.eqb_spec action "append") as [->|_]; [apply append_outcome|].
  destruct (String.eqb_spec action "delete") as [->|_]; [apply delete_outcome|].
  done.
Qed.

(** ** Exit status *)

(** C8, as the specification words it, fails: with two arguments or more
    the exit status is not always zero.  [delete] without its line
    numbers raises [IndexError], and the interpreter exits with status 1. *)
Lemma missing_operand_exits_nonzero :
  ~ (forall (argv : list string) (w : world),
       (3 <= length argv)%nat -> exit_status (main argv w).1 = 0) /\
  main ["edit_file.py"; "f"; "delete"] (world_of abc_nl None)
    = (Raise IndexError, world_of abc_nl None).
Proof.
  split; [|reflexivity]. intros H.
  specialize (H ["edit_file.py"; "f"; "delete"] (world_of abc_nl None)).
  vm_compute in H. by specialize (H ltac:(repeat constructor)).
Qed.

(** C8 (amended): with fewer than two arguments the usage message is
    printed and the exit status is 1.  With two arguments or more the
    exit status is 0 exactly when no exception is raised: a run that
    raises (a missing operand, a line number that is no integer, a
    missing file, a failed write) prints nothing and exits with status 1.
    A replace, insert, append or delete that returns has printed one
    report line.  No exception is raised, so that the exit status is 0,
    by an action that [main] does not know; by show on an existing file
    with line numbers, if any, that are integers; and by replace,
    insert, delete and append on an existing file, with line numbers
    that are integers and a device that accepts the text written in
    full, each of which
    prints its report: the range and the number of new lines, the number
    of lines and the after-line, the range, the path. *)
Theorem exit_status_reflects_outcome (argv : list string) (w : world) :
  let r := (main argv w).1 in
  let w' := (main argv w).2 in
  ((length argv < 3)%nat ->
     r = Raise (SystemExit 1) /\ exit_status r = 1 /\
     stdout w' = stdout w +:+ doc +:+ nl /\ files w' = files w) /\
  ((3 <= length argv)%nat ->
     (r = Return tt /\ exit_status r = 0) \/
     (exists e, r = Raise e /\ is_system_exit e = false /\
                exit_status r = 1 /\ stdout w' = stdout w)) /\
  (forall action, argv !! 2%nat = Some action -> edit_action action = true ->
     r = Return tt -> exists report, stdout w' = stdout w +:+ report +:+ nl) /\
  (forall action, argv !! 2%nat = Some action -> known_action action = false ->
     r = Return tt /\ exit_status r = 0) /\
  (forall prog filepath rest content,
     argv = prog :: filepath :: "show" :: rest ->
     files w !! filepath = Some content ->
     (forall a, a ∈ take 2 rest -> is_Some (PyInt.int a)) ->
     r = Return tt /\ exit_status r = 0) /\
  (forall prog filepath a3 a4 rest content s e,
     argv = prog :: filepath :: "replace" :: a3 :: a4 :: rest ->
     files w !! filepath = Some content ->
     PyInt.int a3 = Some s -> PyInt.int a4 = Some e ->
     fits (join (splice (readlines (universal_newlines content)) (s - 1) e
                        (split_replace (supplied_text rest w)))) w = true ->
     r = Return tt /\ exit_status r = 0 /\
     stdout w'
     = stdout w +:+ "Replaced lines " +:+ pretty s +:+ "-" +:+ pretty e
       +:+ " with "
       +:+ pretty (Z.of_nat (length (split_replace (supplied_text rest w))))
       +:+ " lines" +:+ nl) /\
  (forall prog filepath a3 rest content a,
     argv = prog :: filepath :: "insert" :: a3 :: rest ->
     files w !! filepath = Some content ->
     PyInt.int a3 = Some a ->
     fits (join (splice (readlines (universal_newlines content)) a a
                        (split_insert (supplied_text rest w)))) w = true ->
     r = Return tt /\ exit_status r = 0 /\
     stdout w'
     = stdout w +:+ "Inserted "
       +:+ pretty (Z.of_nat (length (split_insert (supplied_text rest w))))
       +:+ " lines after line " +:+ pretty a +:+ nl) /\
  (forall prog filepath a3 a4 rest content s e,
     argv = prog :: filepath :: "delete" :: a3 :: a4 :: rest ->
     files w !! filepath = Some content ->
     PyInt.int a3 = Some s -> PyInt.int a4 = Some e ->
     fits (join (splice (readlines (universal_newlines content)) (s - 1) e
                        [])) w = true ->
     r = Return tt /\ exit_status r = 0 /\
     stdout w'
     = stdout w +:+ "Deleted lines " +:+ pretty s +:+ "-" +:+ pretty e +:+ nl) /\
  (forall prog filepath rest content,
     argv = prog :: filepath :: "append" :: rest ->
     files w !! filepath = Some content ->
     fits (supplied_text rest w) w = true ->
     r = Return tt /\ exit_status r = 0 /\
     stdout w' = stdout w +:+ "Appended content to " +:+ filepath +:+ nl).
Proof.
  intros r w'. subst r w'. repeat apply conj.
  - intros H. by rewrite main_usage.
  - intros H. destruct (lookup_lt_is_Some_2 argv 2%nat H) as [action Ha].
    pose proof (main_outcome argv action w Ha) as Ho. unfold outcome_ok in Ho.
    destruct (main argv w).1 as [[]|e]; [by left|right].
    exists e. destruct Ho as (Hx & Hout & _). by destruct e.
  - intros action Ha He Hr.
    pose proof (main_outcome argv action w Ha) as Ho. unfold outcome_ok in Ho.
    by rewrite Hr, He in Ho.
  - intros action Ha Hk.
    destruct argv as [|prog [|filepath [|action' rest]]]; try done.
    injection Ha as ->. rewrite main_dispatch.
    unfold known_action, edit_action in Hk.
    rewrite !orb_false_iff in Hk. destruct Hk as (? & ((? & ?) & ?) & ?).
    repeat match goal with
           | H : String.eqb _ _ = false |- _ => rewrite H; clear H
           end.
    done.
  - intros prog filepath rest content -> Hf Hint. rewrite main_dispatch.
    change (String.eqb "show" "show") with true. cbv iota.
    unfold_show. rewrite Hf. project.
    destruct rest as [|a3 [|a4 rest]]; simpl.
    + by rewrite for_each_write_out.
    + destruct (Hint a3 ltac:(apply list_elem_of_here)) as [n3 ->].
      by rewrite for_each_write_out.
    + destruct (Hint a3 ltac:(apply list_elem_of_here)) as [n3 ->].
      destruct (Hint a4 ltac:(apply list_elem_of_further, list_elem_of_here))
        as [n4 ->].
      by rewrite for_each_write_out.
  - intros prog filepath a3 a4 rest content s e -> Hf H3 H4 Hfit.
    rewrite main_dispatch.
    change (String.eqb "replace" "show") with false.
    change (String.eqb "replace" "replace") with true. cbv iota.
    unfold fits in Hfit. unfold_run. simpl. rewrite H3, H4.
    destruct rest as [|text rest]; simpl in *; project; rewrite Hf; project;
      destruct (room w) as [k|]; rewrite ?app_empty_l, ?Hfit; project;
      replace (s - 1 + 1) with s by lia; by rewrite !app_assoc.
  - intros prog filepath a3 rest content a -> Hf H3 Hfit.
    rewrite main_dispatch.
    change (String.eqb "insert" "show") with false.
    change (String.eqb "insert" "replace") with false.
    change (String.eqb "insert" "insert") with true. cbv iota.
    unfold fits in Hfit. unfold_run. simpl. rewrite H3.
    destruct rest as [|text rest]; simpl in *; project; rewrite Hf; project;
      destruct (room w) as [k|]; rewrite ?app_empty_l, ?Hfit; project;
      by rewrite !app_assoc.
  - intros prog filepath a3 a4 rest content s e -> Hf H3 H4 Hfit.
    rewrite main_dispatch.
    change (String.eqb "delete" "show") with false.
    change (String.eqb "delete" "replace") with false.
    change (String.eqb "delete" "insert") with false.
    change (String.eqb "delete" "append") with false.
    change (String.eqb "delete" "delete") with true. cbv iota.
    unfold fits in Hfit. unfold_run. simpl. rewrite H3, H4, Hf. project.
    destruct (room w) as [k|]; rewrite ?app_empty_l, ?Hfit; project;
      replace (s - 1 + 1) with s by lia; by rewrite !app_assoc.
  - intros prog filepath rest content -> Hf Hfit. rewrite main_dispatch.
    change (String.eqb "append" "show") with false.
    change (String.eqb "append" "replace") with false.
    change (String.eqb "append" "insert") with false.
    change (String.eqb "append" "append") with true. cbv iota.
    unfold fits in Hfit. unfold_run.
    destruct rest as [|text rest]; simpl in *; project; rewrite Hf; project;
      destruct (room w) as [k|]; rewrite ?Hfit; by project.
Qed.

Lemma exit_status_reflects_outcome_witness :
  (length ["edit_file.py"; "f"] < 3)%nat /\
  exit_status (main ["edit_file.py"; "f"] (world_of abc_nl None)).1 = 1.
Proof.
  assert (length ["edit_file.py"; "f"] < 3)%nat as H by (cbn; lia).
  split; [exact H|].
  apply (proj1 (exit_status_reflects_outcome
                  ["edit_file.py"; "f"] (world_of abc_nl None))).
  exact H.
Defined.

(** ** Failures and the file *)

(** C9, as the specification words it, fails: [write_file] empties the
    file when it opens it, so when the device then refuses the write the
    run fails and the old text is gone. *)
Lemma write_failure_truncates_file :
  let argv := ["edit_file.py"; "f"; "delete"; "1"; "1"] in
  let w := world_of abc_nl (Some 0%nat) in
  ~ (forall e, (main argv w).1 = Raise e -> files (main argv w).2 = files w) /\
  (main argv w).1 = Raise (OSError "f") /\
  files w !! "f" = Some abc_nl /\
  files (main argv w).2 !! "f" = Some "".
Proof.
  cbv zeta. split; [|by vm_compute]. intros H.
  specialize (H (OSError "f") eq_refl).
  apply (f_equal (fun m => m !! "f")) in H. vm_compute in H. discriminate.
Qed.

(** C9 (amended): a run that fails with anything but a write failure
    (a missing operand, a line number that is no integer, a missing
    file) leaves every file as it was; and on a device that accepts
    every write no run fails with a write failure. *)
Theorem failure_before_writing_keeps_files
    (argv : list string) (w : world) (e : exn) :
  (main argv w).1 = Raise e ->
  (is_write_failure e = false -> files (main argv w).2 = files w) /\
  (room w = None -> is_write_failure e = false).
Proof.
  intros Hr. destruct (decide (length argv < 3)%nat) as [Hl|Hl].
  - rewrite main_usage in * by done. cbn in Hr. injection Hr as <-. done.
  - destruct (lookup_lt_is_Some_2 argv 2%nat ltac:(lia)) as [action Ha].
    pose proof (main_outcome argv action w Ha) as Ho. unfold outcome_ok in Ho.
    rewrite Hr in Ho. by destruct Ho as (_ & _ & ? & ?).
Qed.

Lemma failure_before_writing_keeps_files_witness :
  let argv := ["edit_file.py"; "f"; "delete"; "x"; "1"] in
  let w := world_of abc_nl (Some 2%nat) in
  (main argv w).1 = Raise (ValueError "x") /\ files (main argv w).2 = files w.
Proof.
  cbv zeta. split; [reflexivity|].
  apply (failure_before_writing_keeps_files _ _ (ValueError "x"));
    reflexivity.
Defined.

(** ** Show *)

(** What the show branch returns and prints is a function of the files
    alone, and it leaves the files alone. *)
Lemma show_depends_on_files
    (argv : list string) (filepath : string) (w w' : world) :
  files w' = files w ->
  exists out,
    (main_show argv filepath w').1 = (main_show argv filepath w).1 /\
    files (main_show argv filepath w).2 = files w /\
    stdout (main_show argv filepath w).2 = stdout w +:+ out /\
    stdout (main_show argv filepath w').2 = stdout w' +:+ out.
Proof.
  intros Hf. unfold_show. rewrite Hf.
  repeat (first [rewrite !for_each_write_out | break_goal]; project);
    first [ by eexists | exists ""; by rewrite !app_empty_r ].
Qed.

(** C6: show leaves every file as it was, and a second show on the
    result returns the same, leaves the files as they were and prints
    the same text once more. *)
Theorem show_is_idempotent (argv : list string) (w : world) :
  argv !! 2%nat = Some "show" ->
  let run1 := main argv w in
  let run2 := main argv run1.2 in
  files run1.2 = files w /\ files run2.2 = files w /\ run2.1 = run1.1 /\
  exists out,
    stdout run1.2 = stdout w +:+ out /\ stdout run2.2 = stdout run1.2 +:+ out.
Proof.
  intros Ha. destruct argv as [|prog [|filepath [|action rest]]]; try done.
  injection Ha as ->. cbv zeta. rewrite !main_dispatch.
  change (String.eqb "show" "show") with true. cbv iota.
  set (argv := prog :: filepath :: "show" :: rest).
  destruct (show_depends_on_files argv filepath w w eq_refl)
    as (_ & _ & Hf1 & _).
  destruct (show_depends_on_files argv filepath w
              (main_show argv filepath w).2 Hf1) as (out & Hr & _ & Ho1 & Ho2).
  destruct (show_depends_on_files argv filepath
              (main_show argv filepath w).2 (main_show argv filepath w).2 eq_refl)
    as (_ & _ & Hf2 & _).
  repeat split; [done|congruence|done|by exists out].
Qed.

Lemma show_is_idempotent_witness :
  let argv := ["edit_file.py"; "f"; "show"; "2"; "3"] in
  let w := world_of abc_nl None in
  argv !! 2%nat = Some "show" /\
  files (main argv w).2 = files w /\
  stdout (main argv w).2 = "   2: b" +:+ nl +:+ "   3: c" +:+ nl.
Proof.
  cbv zeta. split; [reflexivity|]. split; [|reflexivity].
  apply (show_is_idempotent ["edit_file.py"; "f"; "show"; "2"; "3"]).
  reflexivity.
Defined.

(** ** Append *)

(** C7: append puts the text it is given (as an argument, or else all of
    standard input) behind the text the file holds, unchanged and unsplit;
    it opens the file once, for appending, and never looks at the further
    arguments. *)
Theorem append_writes_verbatim
    (prog filepath text content : string) (rest : list string) (w : world) :
  files w !! filepath = Some content ->
  let run := main (prog :: filepath :: "append" :: text :: rest) w in
  let piped := stdin w in
  let run0 := main [prog; filepath; "append"] w in
  (fits text w = true ->
     run.1 = Return tt /\
     files run.2 = <[filepath := content +:+ text]> (files w) /\
     opened run.2 = (filepath, ModeA) :: opened w /\ stdin run.2 = stdin w) /\
  (fits piped w = true ->
     run0.1 = Return tt /\
     files run0.2 = <[filepath := content +:+ piped]> (files w) /\
     opened run0.2 = (filepath, ModeA) :: opened w).
Proof.
  intros Hc run piped run0. subst run piped run0. rewrite !main_dispatch.
  change (String.eqb "append" "show") with false.
  change (String.eqb "append" "replace") with false.
  change (String.eqb "append" "insert") with false.
  change (String.eqb "append" "append") with true. cbv iota.
  unfold fits. split; intros Hfit; unfold_run; simpl; project; rewrite Hc;
    simpl; destruct (room w) as [r|]; try rewrite Hfit; by project.
Qed.

Lemma append_writes_verbatim_witness :
  let w := world_of abc (Some 5%nat) in
  let argv := ["edit_file.py"; "f"; "append"; nl +:+ "d"; "9"] in
  (files w !! "f" = Some abc /\ fits (nl +:+ "d") w = true) /\
  files (main argv w).2 = <["f" := abc +:+ nl +:+ "d"]> (files w).
Proof.
  cbv zeta. split; [split; reflexivity|].
  apply (append_writes_verbatim "edit_file.py" "f" (nl +:+ "d") abc ["9"]);
    reflexivity.
Defined.

(** ** Line numbers *)

(** What [int()] takes for an integer: blanks around the literal and
    single underscores between digits are accepted; a separator
    character (code 28) is not, nor are more than 4300 digits. *)
Example int_accepts_and_rejects :
  map PyInt.int [" 12 "; "-3"; "1_000"; "007"]
    = [Some 12; Some (-3); Some 1000; Some 7] /\
  map PyInt.int [""; "+"; "+ 3"; "1__0"; "_1"; "1_"; "1.5"; "two";
                 String (ascii_of_nat 28) "2"]
    = [None; None; None; None; None; None; None; None; None] /\
  is_Some (PyInt.int (String.concat "" (replicate 4300 "1"))) /\
  PyInt.int (String.concat "" (replicate 4301 "1")) = None.
Proof.
  split; [by vm_compute|]. split; [by vm_compute|].
  split; [|by vm_compute]. eexists. vm_compute. reflexivity.
Qed.




(** ** Delete, then insert *)

(** C4 at the document ["a\n", "\n", "b\n"] and the range [2..2]: the
    blank line is deleted, and inserting its text after line 1 puts two
    blank lines where one was.  The insert branch keeps the empty
    fragment behind the last newline whenever an earlier fragment is
    empty too, because [index] finds the earlier one. *)
Theorem delete_then_insert_doubles_blank_line :
  let w := world_of (join blank_doc) None in
  let w1 := (main ["edit_file.py"; "f"; "delete"; "2"; "2"] w).2 in
  let text := join (lines_between 2 2 blank_doc) in
  let w2 := (main ["edit_file.py"; "f"; "insert"; "1"; text] w1).2 in
  text = nl /\
  split_nl text = [""; ""] /\ index "" (split_nl text) = Some 0%nat /\
  split_insert text = [nl; nl] /\ split_replace text = [nl] /\
  files w1 !! "f" = Some (join ["a" +:+ nl; "b" +:+ nl]) /\
  files w2 !! "f" = Some (join ["a" +:+ nl; nl; nl; "b" +:+ nl]) /\
  delete_then_insert blank_doc 2 2 = ["a" +:+ nl; nl; nl; "b" +:+ nl] /\
  delete_then_insert blank_doc 2 2 <> blank_doc /\
  delete_then_replace blank_doc 2 2 = blank_doc.
Proof. cbv zeta. repeat split; by vm_compute. Qed.

(** ** What the editing branches write *)

Section Written.
Context (prog filepath a3 a4 text content : string) (rest : list string).
Context (w : world) (s e : Z).
Hypothesis (Hfile : files w !! filepath = Some content).
Hypothesis (Hroom : room w = None).

Let doc : list string := readlines (universal_newlines content).

(** On an existing file the three branches store the spliced lines, one
    after the other, in place of the old text. *)
Lemma replace_writes_spliced_lines :
  PyInt.int a3 = Some s -> PyInt.int a4 = Some e ->
  let run := main (prog :: filepath :: "replace" :: a3 :: a4 :: text :: rest) w in
  run.1 = Return tt /\
  files run.2
    = <[filepath := join (splice doc (s - 1) e (split_replace text))]> (files w).
Proof.
  intros H3 H4. cbv zeta. rewrite main_dispatch.
  change (String.eqb "replace" "show") with false.
  change (String.eqb "replace" "replace") with true. cbv iota.
  unfold_run. simpl. rewrite H3, H4, Hfile. project. rewrite Hroom. project.
  by rewrite insert_insert_eq.
Qed.

Lemma insert_writes_spliced_lines :
  PyInt.int a3 = Some s ->
  let run := main (prog :: filepath :: "insert" :: a3 :: text :: rest) w in
  run.1 = Return tt /\
  files run.2
    = <[filepath := join (splice doc s s (split_insert text))]> (files w).
Proof.
  intros H3. cbv zeta. rewrite main_dispatch.
  change (String.eqb "insert" "show") with false.
  change (String.eqb "insert" "replace") with false.
  change (String.eqb "insert" "insert") with true. cbv iota.
  unfold_run. simpl. rewrite H3, Hfile. project. rewrite Hroom. project.
  by rewrite insert_insert_eq.
Qed.

Lemma delete_writes_spliced_lines :
  PyInt.int a3 = Some s -> PyInt.int a4 = Some e ->
  let run := main (prog :: filepath :: "delete" :: a3 :: a4 :: rest) w in
  run.1 = Return tt /\
  files run.2 = <[filepath := join (splice doc (s - 1) e [])]> (files w).
Proof.
  intros H3 H4. cbv zeta. rewrite main_dispatch.
  change (String.eqb "delete" "show") with false.
  change (String.eqb "delete" "replace") with false.
  change (String.eqb "delete" "insert") with false.
  change (String.eqb "delete" "append") with false.
  change (String.eqb "delete" "delete") with true. cbv iota.
  unfold_run. simpl. rewrite H3, H4, Hfile. project. rewrite Hroom. project.
  by rewrite insert_insert_eq.
Qed.

End Written.

(** The scenario of the specification: [replace 2 2 "TWO\n"] on the lines
    one, two, three, and [delete 1 1] on the result. *)
Example one_two_three :
  let w := world_of ("one" +:+ nl +:+ "two" +:+ nl +:+ "three" +:+ nl) None in
  let run1 := main ["edit_file.py"; "f"; "replace"; "2"; "2"; "TWO" +:+ nl] w in
  let run2 := main ["edit_file.py"; "f"; "delete"; "1"; "1"] run1.2 in
  files run1.2 !! "f" = Some ("one" +:+ nl +:+ "TWO" +:+ nl +:+ "three" +:+ nl) /\
  stdout run1.2 = "Replaced lines 2-2 with 1 lines" +:+ nl /\
  files run2.2 !! "f" = Some ("TWO" +:+ nl +:+ "three" +:+ nl).
Proof. cbv zeta. repeat split; by vm_compute. Qed.

(** * Further properties *)

(** ** Reading lines and writing them back *)

Section ReadWrite.

Lemma readlines_fragments (s : string) :
  forall ps lst, split_nl s = ps ++ [lst] ->
  readlines s = map add_nl ps ++ (if truthy lst then [lst] else []).
Proof.
  induction s as [|c s IH]; intros ps lst Hs.
  - destruct ps as [|p [|q ps]]; [|done..]. by injection Hs as <-.
  - destruct (split_nl_spec s) as (ps' & lst' & Hs' & _).
    specialize (IH ps' lst' Hs'). cbn [split_nl readlines] in *.
    rewrite Hs', IH in *. destruct (Ascii.eqb_spec c LF) as [->|Hc].
    + destruct ps as [|p ps]; [by destruct ps'|]. cbn [app] in Hs.
      injection Hs as <- Hs. apply app_inj_tail in Hs as [<- <-]. done.
    + destruct ps' as [|p' ps']; cbn [app map] in *.
      * destruct ps as [|p [|q ps]]; [|done..]. injection Hs as <-.
        by destruct lst'.
      * destruct ps as [|p ps]; [by destruct ps'|]. cbn [app] in Hs.
        injection Hs as <- Hs. apply app_inj_tail in Hs as [<- <-]. done.
Qed.

Lemma join_readlines (s : string) : join (readlines s) = s.
Proof.
  induction s as [|c s IH]; [done|]. cbn [readlines].
  destruct (Ascii.eqb c LF).
  - by rewrite join_cons, app_cons, app_empty_l, IH.
  - destruct (readlines s) as [|h t].
    + change (join []) with "" in IH. subst s. by rewrite join_singleton.
    + rewrite join_cons in *. by rewrite app_cons, IH.
Qed.

Lemma universal_newlines_id (s : string) :
  contains_cr s = false -> universal_newlines s = s.
Proof.
  induction s as [|c s IH]; [done|]. cbn [contains_cr universal_newlines].
  intros [Hc Hs]%orb_false_iff. by rewrite Hc, IH.
Qed.

Lemma universal_newlines_no_cr (s : string) :
  contains_cr (universal_newlines s) = false.
Proof.
  induction s as [|c s IH]; [done|]. cbn [universal_newlines].
  destruct (Ascii.eqb c CR) eqn:Hc.
  - destruct s as [|c' s']; [done|].
    destruct (Ascii.eqb c' LF) eqn:Hc'; cbn [contains_cr]; [|by rewrite IH].
    cbn [universal_newlines] in IH. rewrite Ascii.eqb_sym in Hc'.
    apply Ascii.eqb_eq in Hc' as <-. cbn [contains_cr] in IH.
    destruct (Ascii.eqb LF CR) eqn:E; [done|]. cbn [orb] in IH.
    by destruct s'.
  - cbn [contains_cr]. by rewrite Hc, IH.
Qed.

Lemma proper_line_add_nl (p : string) :
  contains_nl p = false -> proper_line (add_nl p) = true.
Proof.
  induction p as [|c p IH]; [done|]. cbn [contains_nl].
  intros [Hc Hp]%orb_false_iff. unfold add_nl. rewrite app_cons.
  cbn [proper_line]. rewrite Hc. by apply IH.
Qed.

Lemma proper_line_inv (l : string) :
  proper_line l = true -> exists p, l = add_nl p /\ contains_nl p = false.
Proof.
  induction l as [|c l IH]; [done|]. cbn [proper_line].
  destruct (Ascii.eqb_spec c LF) as [->|Hc%Ascii.eqb_neq].
  - destruct l; [|done]. by exists "".
  - intros (p & -> & Hp)%IH. exists (String c p). split; [done|].
    cbn [contains_nl]. by rewrite Hc.
Qed.

Lemma proper_lines_map_add_nl (ps : list string) :
  Forall (fun p => contains_nl p = false) ps ->
  forallb proper_line (map add_nl ps) = true.
Proof.
  induction 1 as [|p ps Hp _ IH]; [done|]. cbn [map forallb].
  by rewrite proper_line_add_nl, IH.
Qed.

Lemma readlines_fragment (p rest : string) :
  contains_nl p = false ->
  readlines (add_nl p +:+ rest) = add_nl p :: readlines rest.
Proof.
  unfold add_nl. induction p as [|c p IH]; [done|]. cbn [contains_nl].
  intros [Hc Hp]%orb_false_iff. rewrite !app_cons. cbn [readlines].
  by rewrite Hc, IH.
Qed.

Lemma readlines_join (ls : list string) :
  forallb proper_line ls = true -> readlines (join ls) = ls.
Proof.
  induction ls as [|l ls IH]; [done|]. cbn [forallb].
  intros [(p & -> & Hp)%proper_line_inv Hls]%andb_true_iff.
  by rewrite join_cons, readlines_fragment, IH.
Qed.

End ReadWrite.

Section ProperLines.

Lemma forallb_take {A} (f : A -> bool) (n : nat) (l : list A) :
  forallb f l = true -> forallb f (take n l) = true.
Proof.
  revert n. induction l as [|x l IH]; intros [|n]; try done. cbn [take forallb].
  intros [Hx Hl]%andb_true_iff. by rewrite Hx, IH.
Qed.

Lemma forallb_drop {A} (f : A -> bool) (n : nat) (l : list A) :
  forallb f l = true -> forallb f (drop n l) = true.
Proof.
  revert n. induction l as [|x l IH]; intros [|n]; try done. cbn [drop forallb].
  intros [Hx Hl]%andb_true_iff. by apply IH.
Qed.

Lemma proper_lines_splice (doc new : list string) (start stop : Z) :
  forallb proper_line doc = true -> forallb proper_line new = true ->
  forallb proper_line (splice doc start stop new) = true.
Proof.
  intros Hd Hn. unfold splice, upto, from. rewrite !forallb_app.
  by rewrite forallb_take, Hn, forallb_drop.
Qed.

Lemma proper_lines_split_replace (text : string) :
  forallb proper_line (split_replace text) = true.
Proof.
  destruct (split_nl_spec text) as (ps & lst & Hs & Hj & Hps & Hlst).
  rewrite (split_replace_spec text ps lst Hs Hj Hlst).
  apply proper_lines_map_add_nl. apply Forall_app. split; [done|].
  destruct (truthy lst); by repeat constructor.
Qed.

Lemma proper_lines_split_insert (text : string) :
  forallb proper_line (split_insert text) = true.
Proof.
  destruct (split_nl_spec text) as (ps & lst & Hs & Hj & Hps & Hlst).
  unfold split_insert. rewrite Hs. apply proper_lines_map_add_nl.
  apply Forall_forall. intros p [Hp _]%list_elem_of_In%filter_In.
  apply list_elem_of_In, elem_of_app in Hp as [Hp|Hp%list_elem_of_singleton].
  - rewrite Forall_forall in Hps. by apply Hps.
  - by subst p.
Qed.

Lemma readlines_proper (text : string) :
  terminated text = true \/ text = "" ->
  forallb proper_line (readlines text) = true.
Proof.
  intros Ht. destruct (split_nl_spec text) as (ps & lst & Hs & Hj & Hps & Hlst).
  rewrite (readlines_fragments text ps lst Hs).
  destruct lst as [|c lst]; cbn [truthy].
  { rewrite app_nil_r. by apply proper_lines_map_add_nl. }
  exfalso. destruct Ht as [Ht| ->].
  - unfold terminated in Ht.
    rewrite Hj, endswith_app_nl, endswith_no_nl in Ht; done.
  - by destruct (join (map add_nl ps)).
Qed.

Lemma contains_cr_app (a b : string) :
  contains_cr (a +:+ b) = contains_cr a || contains_cr b.
Proof.
  induction a as [|c a IH]; [done|]. rewrite app_cons. cbn [contains_cr].
  by rewrite IH, orb_assoc.
Qed.

Lemma contains_cr_join (ls : list string) :
  contains_cr (join ls) = existsb contains_cr ls.
Proof.
  induction ls as [|l ls IH]; [done|].
  by rewrite join_cons, contains_cr_app, IH.
Qed.

Lemma existsb_take_false {A} (f : A -> bool) (n : nat) (l : list A) :
  existsb f l = false -> existsb f (take n l) = false.
Proof.
  revert n. induction l as [|x l IH]; intros [|n]; try done. cbn [take existsb].
  intros [Hx Hl]%orb_false_iff. by rewrite Hx, IH.
Qed.

Lemma existsb_drop_false {A} (f : A -> bool) (n : nat) (l : list A) :
  existsb f l = false -> existsb f (drop n l) = false.
Proof.
  revert n. induction l as [|x l IH]; intros [|n]; try done. cbn [drop existsb].
  intros [Hx Hl]%orb_false_iff. by apply IH.
Qed.

Lemma split_nl_no_cr (s : string) :
  contains_cr s = false -> Forall (fun p => contains_cr p = false) (split_nl s).
Proof.
  induction s as [|c s IH]; [by repeat constructor|]. cbn [contains_cr split_nl].
  intros [Hc Hs]%orb_false_iff. specialize (IH Hs).
  destruct (Ascii.eqb c LF); [by constructor|].
  destruct (split_nl s) as [|h t]; [by repeat constructor; cbn; rewrite Hc|].
  inversion_clear IH. constructor; [|done]. cbn [contains_cr]. by rewrite Hc.
Qed.

Lemma split_insert_no_cr (text : string) :
  contains_cr text = false -> existsb contains_cr (split_insert text) = false.
Proof.
  intros Hcr. apply split_nl_no_cr in Hcr. unfold split_insert.
  destruct (existsb _ _) eqn:E; [|done].
  apply existsb_exists in E as (l & Hl & El).
  apply in_map_iff in Hl as (p & <- & [Hp _]%filter_In).
  rewrite Forall_forall in Hcr. apply list_elem_of_In, Hcr in Hp.
  unfold add_nl in El. by rewrite contains_cr_app, Hp in El.
Qed.

Lemma split_replace_no_cr (text : string) :
  contains_cr text = false -> existsb contains_cr (split_replace text) = false.
Proof.
  intros Hcr. rewrite <- contains_cr_join, join_split_replace.
  destruct (_ || _); [done|]. by rewrite contains_cr_app, Hcr.
Qed.

Lemma splice_no_cr (doc new : list string) (start stop : Z) :
  existsb contains_cr doc = false -> existsb contains_cr new = false ->
  existsb contains_cr (splice doc start stop new) = false.
Proof.
  intros Hd Hn. unfold splice, upto, from.
  by rewrite !existsb_app, existsb_take_false, Hn, existsb_drop_false.
Qed.

Lemma readlines_no_cr (text : string) :
  contains_cr text = false -> existsb contains_cr (readlines text) = false.
Proof. intros Hcr. by rewrite <- contains_cr_join, join_readlines. Qed.

(** Proper lines without carriage returns are read as they were written. *)
Lemma write_then_read (filepath : string) (lines : list string) (w : world) :
  forallb proper_line lines = true -> existsb contains_cr lines = false ->
  room w = None ->
  ((write_file filepath lines ;; read_file filepath) w).1 = Return lines.
Proof.
  intros Hp Hcr Hr. unfold_run. rewrite Hr. project.
  rewrite lookup_insert_eq, app_empty_l. project.
  by rewrite universal_newlines_id, readlines_join
    by (by rewrite ?contains_cr_join).
Qed.

Lemma readable_cons (l : string) (ls : list string) :
  proper_line l = true -> readable ls = true -> readable (l :: ls) = true.
Proof. intros Hl Hls. cbn [readable]. rewrite Hl. by destruct ls. Qed.

Lemma readable_app (xs ys : list string) :
  forallb proper_line xs = true -> readable ys = true ->
  readable (xs ++ ys) = true.
Proof.
  induction xs as [|x xs IH]; [done|]. cbn [forallb].
  intros [Hx Hxs]%andb_true_iff Hys. apply readable_cons; [done|by apply IH].
Qed.

Lemma readable_proper (xs : list string) :
  forallb proper_line xs = true -> readable xs = true.
Proof. intros H. rewrite <- (app_nil_r xs). by apply readable_app. Qed.

Lemma readable_readlines (text : string) : readable (readlines text) = true.
Proof.
  destruct (split_nl_spec text) as (ps & lst & Hs & _ & Hps & Hlst).
  rewrite (readlines_fragments text ps lst Hs).
  apply readable_app; [by apply proper_lines_map_add_nl|].
  destruct (truthy lst) eqn:E; [|done]. cbn [readable].
  by rewrite E, Hlst, orb_true_r.
Qed.

Lemma readlines_join_readable (ls : list string) :
  readable ls = true -> readlines (join ls) = ls.
Proof.
  induction ls as [|l ls IH]; [done|]. cbn [readable].
  destruct ls as [|l' ls].
  - rewrite join_singleton.
    intros [Hl|[Ht Hn%negb_true_iff]%andb_true_iff]%orb_true_iff.
    + rewrite <- (join_singleton l) at 1. apply readlines_join.
      cbn [forallb]. by rewrite Hl.
    + rewrite (readlines_fragments l [] l) by (by apply split_nl_last).
      by rewrite Ht.
  - intros [(p & -> & Hp)%proper_line_inv Hls]%andb_true_iff.
    by rewrite join_cons, readlines_fragment, IH.
Qed.

Lemma readable_drop (n : nat) (ls : list string) :
  readable ls = true -> readable (drop n ls) = true.
Proof.
  revert n. induction ls as [|l ls IH]; intros [|n]; try done.
  cbn [drop readable]. destruct ls as [|l' ls]; [by destruct n|].
  intros [_ Hls]%andb_true_iff. by apply IH.
Qed.

Lemma readable_take_proper (n : nat) (ls : list string) :
  readable ls = true -> (n < length ls)%nat ->
  forallb proper_line (take n ls) = true.
Proof.
  revert n. induction ls as [|l ls IH]; intros [|n]; try done.
  cbn [take readable length forallb]. intros Hr Hn.
  destruct ls as [|l' ls]; [cbn [length] in Hn; lia|].
  apply andb_true_iff in Hr as [Hl Hls]. rewrite Hl. apply IH; [done|lia].
Qed.

(** A cut that lies before the last line, or new lines that are none,
    or a document of proper lines only: the spliced lines can be held by
    a text file. *)
Lemma readable_splice (doc new : list string) (n m : nat) :
  readable doc = true -> forallb proper_line new = true -> (n <= m)%nat ->
  (n < length doc)%nat \/ new = [] \/ forallb proper_line doc = true ->
  readable (take n doc ++ new ++ drop m doc) = true.
Proof.
  intros Hd Hn Hnm [Hlt|[->|Hp]].
  - apply readable_app; [by apply readable_take_proper|].
    apply readable_app; [done|by apply readable_drop].
  - cbn [app]. destruct (decide (n < length doc)%nat) as [Hlt|Hge].
    + apply readable_app; [by apply readable_take_proper|].
      by apply readable_drop.
    + by rewrite take_ge, drop_ge, app_nil_r by lia.
  - apply readable_proper. rewrite !forallb_app.
    by rewrite forallb_take, Hn, forallb_drop.
Qed.

(** The stored document after a write of lines a text file can hold. *)
Lemma stored_doc_readable (w : world) (filepath : string)
    (m : gmap string string) (lines : list string) :
  files w = <[filepath := join lines]> m ->
  readable lines = true -> stored_doc w filepath = lines.
Proof.
  intros Hf Hp. unfold stored_doc. rewrite Hf, lookup_insert_eq.
  by apply readlines_join_readable.
Qed.

End ProperLines.

(** ** Untouched lines of the stored document *)

(** C2, as the specification words it, fails on the stored document.  An
    insert behind an unterminated last line fuses that line with the
    first new line, so that the old line ["b"] is no line of the file any
    more; and every edit of a file with ["\r\n"] line ends stores the
    lines outside the range with ["\n"] instead. *)
Lemma stored_lines_are_rewritten :
  let fused := main ["edit_file.py"; "f"; "insert"; "2"; "c"]
                    (world_of ("a" +:+ nl +:+ "b") None) in
  let crlf := "a" +:+ String CR nl +:+ "b" +:+ String CR nl
              +:+ "c" +:+ String CR nl in
  let cut := main ["edit_file.py"; "f"; "delete"; "2"; "2"]
                  (world_of crlf None) in
  ~ (forall (prog filepath a3 text : string) (w : world) (l : string),
       is_Some (PyInt.int a3) -> l ∈ stored_doc w filepath ->
       l ∈ stored_doc (main [prog; filepath; "insert"; a3; text] w).2 filepath)
  /\
  (stored_doc (world_of ("a" +:+ nl +:+ "b") None) "f" = ["a" +:+ nl; "b"] /\
   fused.1 = Return tt /\
   stored_doc fused.2 "f" = ["a" +:+ nl; "bc" +:+ nl]) /\
  (line (stored_doc (world_of crlf None) "f") 1 = Some ("a" +:+ String CR nl) /\
   cut.1 = Return tt /\
   stored_doc cut.2 "f" = ["a" +:+ nl; "c" +:+ nl]).
Proof.
  cbv zeta. split; [|by vm_compute]. intros H.
  specialize (H "edit_file.py" "f" "2" "c" (world_of ("a" +:+ nl +:+ "b") None)
                "b" ltac:(by eexists)).
  assert ("b" ∈ ["a" +:+ nl; "bc" +:+ nl]) as Hin.
  { apply H. vm_compute. apply list_elem_of_further, list_elem_of_here. }
  apply elem_of_cons in Hin as [Hin|Hin]; [discriminate|].
  apply elem_of_cons in Hin as [Hin|Hin]; [discriminate|].
  by apply elem_of_nil in Hin.
Qed.

(** C2 (amended): let the file hold no carriage return.  Then after
    replace and delete with a range [s..e] that satisfies the range
    invariant, every line of the stored document before [s] and behind
    [e] is a line of the stored document again, byte for byte, moved by
    the change in length only; and after insert every line of the stored
    document is, those behind the insertion point moved by the number of
    inserted lines.  The one exception is a replace or an insert that
    puts a text that is not empty right behind a last line that lacks
    its newline. *)
Theorem untouched_lines_preserved
    (prog filepath a3 a4 i3 text content : string) (rest : list string)
    (w : world) (s e a : Z) :
  files w !! filepath = Some content -> room w = None ->
  contains_cr content = false ->
  PyInt.int a3 = Some s -> PyInt.int a4 = Some e -> PyInt.int i3 = Some a ->
  let doc := stored_doc w filepath in
  1 <= s -> s <= e + 1 -> e <= Z.of_nat (length doc) ->
  let after argv := stored_doc (main argv w).2 filepath in
  let replaced :=
    after (prog :: filepath :: "replace" :: a3 :: a4 :: text :: rest) in
  let deleted := after (prog :: filepath :: "delete" :: a3 :: a4 :: rest) in
  let inserted := after (prog :: filepath :: "insert" :: i3 :: text :: rest) in
  let n := Z.of_nat (clamp (length doc) a) in
  let ends_well := terminated content = true \/ content = "" \/ text = "" in
  (ends_well \/ s <= Z.of_nat (length doc) ->
     (forall i, 1 <= i < s -> line replaced i = line doc i) /\
     (forall j, e < j <= Z.of_nat (length doc) ->
        line replaced
             (j - (e - s + 1) + Z.of_nat (length (split_replace text)))
        = line doc j)) /\
  ((forall i, 1 <= i < s -> line deleted i = line doc i) /\
   (forall j, e < j <= Z.of_nat (length doc) ->
      line deleted (j - (e - s + 1)) = line doc j)) /\
  (ends_well \/ n < Z.of_nat (length doc) ->
     (forall i, 1 <= i <= n -> line inserted i = line doc i) /\
     (forall j, n < j <= Z.of_nat (length doc) ->
        line inserted (j + Z.of_nat (length (split_insert text)))
        = line doc j)) /\
  (0 <= a <= Z.of_nat (length doc) -> n = a).
Proof.
  intros Hf Hr Hcr H3 H4 Hi3 doc H1 H2 He after replaced deleted
    inserted n ends_well.
  assert (doc = readlines content) as Hdoc
    by (unfold doc, stored_doc; by rewrite Hf).
  subst after replaced deleted inserted n ends_well. cbv beta.
  rewrite Hdoc in *. clear doc Hdoc.
  pose proof (readable_readlines content) as Hp.
  destruct (replace_writes_spliced_lines prog filepath a3 a4 text content rest
              w s e Hf Hr H3 H4) as [_ Hrep].
  destruct (delete_writes_spliced_lines prog filepath a3 a4 content rest
              w s e Hf Hr H3 H4) as [_ Hdel].
  destruct (insert_writes_spliced_lines prog filepath i3 text content rest
              w a Hf Hr Hi3) as [_ Hins].
  rewrite universal_newlines_id in Hrep, Hdel, Hins by done.
  destruct (splice_keeps_untouched_lines (readlines content) text s e a
              H1 H2 He) as (Hbefore & Hbehind & Hi1 & Hi2 & Hn).
  assert (forall k : string,
            (terminated content = true \/ content = "" \/ k = "") ->
            forall new : list string, (k = "" -> new = []) ->
            new = [] \/ forallb proper_line (readlines content) = true)
    as Hends.
  { intros k [Ht|[Ht| ->]] new Hnew;
      [right; apply readlines_proper; by left
      |right; apply readlines_proper; by right
      |left; by apply Hnew]. }
  repeat apply conj.
  - intros Hcase.
    rewrite (stored_doc_readable _ _ _ _ Hrep).
    { split; intros k Hk; [by apply Hbefore|by apply Hbehind]. }
    rewrite splice_range by done.
    apply readable_splice;
      [done|apply proper_lines_split_replace|lia|].
    destruct Hcase as [Hcase|Hcase]; [|left; lia].
    right. apply (Hends text Hcase). by intros ->.
  - intros i Hi. rewrite (stored_doc_readable _ _ _ _ Hdel);
      [by apply Hbefore|].
    rewrite splice_range by done. apply readable_splice; [done|done|lia|].
    right. by left.
  - intros j Hj. rewrite (stored_doc_readable _ _ _ _ Hdel);
      [by apply Hbehind|].
    rewrite splice_range by done. apply readable_splice; [done|done|lia|].
    right. by left.
  - intros Hcase.
    rewrite (stored_doc_readable _ _ _ _ Hins).
    { split; intros k Hk; [by apply Hi1|by apply Hi2]. }
    rewrite splice_cut.
    apply readable_splice;
      [done|apply proper_lines_split_insert|lia|].
    destruct Hcase as [Hcase|Hcase]; [|left; lia].
    right. apply (Hends text Hcase). by intros ->.
  - done.
Qed.

Lemma untouched_lines_preserved_witness :
  let w := world_of ("a" +:+ nl +:+ "b") None in
  let argv := ["edit_file.py"; "f"; "replace"; "2"; "2"; abc] in
  (files w !! "f" = Some ("a" +:+ nl +:+ "b") /\ room w = None /\
   contains_cr ("a" +:+ nl +:+ "b") = false /\
   PyInt.int "2" = Some 2 /\ PyInt.int "0" = Some 0 /\
   2 <= Z.of_nat (length (stored_doc w "f"))) /\
  line (stored_doc (main argv w).2 "f") 1 = line (stored_doc w "f") 1.
Proof.
  cbv zeta. split; [repeat split; first [reflexivity|vm_compute; discriminate]|].
  destruct (untouched_lines_preserved
              "edit_file.py" "f" "2" "2" "0" abc ("a" +:+ nl +:+ "b") []
              (world_of ("a" +:+ nl +:+ "b") None) 2 2 0)
    as (Hrep & _);
    [first [reflexivity | vm_compute; discriminate | lia]..|].
  apply Hrep; [right; vm_compute; discriminate|lia].
Defined.

(** X1: reading a file into lines and writing the lines back stores the
    text with every ["\r\n"] and lone ["\r"] turned into ["\n"]; a text
    without carriage returns is stored as it was. *)
Theorem read_then_write_normalises_newlines
    (filepath text : string) (w : world) :
  files w !! filepath = Some text -> room w = None ->
  let run := (do lines <- read_file filepath; write_file filepath lines) w in
  run.1 = Return tt /\
  files run.2 = <[filepath := universal_newlines text]> (files w) /\
  contains_cr (universal_newlines text) = false /\
  (contains_cr text = false -> files run.2 = files w).
Proof.
  intros Hf Hr. cbv zeta. unfold_run. rewrite Hf. project. rewrite Hr. project.
  rewrite insert_insert_eq, app_empty_l, join_readlines.
  repeat split; [apply universal_newlines_no_cr|].
  intros Hcr. rewrite universal_newlines_id by done. by apply insert_id.
Qed.

Lemma read_then_write_normalises_newlines_witness :
  let w := world_of ("a" +:+ String CR nl +:+ "b") None in
  (files w !! "f" = Some ("a" +:+ String CR nl +:+ "b") /\ room w = None) /\
  files ((do lines <- read_file "f"; write_file "f" lines) w).2
    = <["f" := "a" +:+ nl +:+ "b"]> (files w).
Proof.
  cbv zeta. split; [split; reflexivity|].
  apply (read_then_write_normalises_newlines
           "f" ("a" +:+ String CR nl +:+ "b")); reflexivity.
Defined.

(** X2: the lines [readlines] cuts a text into are never empty; each of
    them, except possibly the last, is a proper line (one newline, at its
    end); all of them are when the text is empty or ends in a newline;
    and put together they are the text. *)
Theorem readlines_gives_proper_lines (text : string) :
  Forall (fun l => truthy l = true) (readlines text) /\
  forallb proper_line (init (readlines text)) = true /\
  (terminated text = true \/ text = "" ->
     forallb proper_line (readlines text) = true) /\
  join (readlines text) = text.
Proof.
  split; [|split; [|split; [apply readlines_proper|apply join_readlines]]].
  - destruct (split_nl_spec text) as (ps & lst & Hs & _).
    rewrite (readlines_fragments text ps lst Hs). apply Forall_app. split.
    + apply Forall_forall. intros l (p & -> & _)%list_elem_of_fmap.
      unfold add_nl. by destruct p.
    + destruct (truthy lst) eqn:E; by repeat constructor.
  - destruct (split_nl_spec text) as (ps & lst & Hs & _ & Hps & _).
    rewrite (readlines_fragments text ps lst Hs).
    destruct (truthy lst).
    + rewrite init_snoc. by apply proper_lines_map_add_nl.
    + rewrite app_nil_r. apply forallb_take. by apply proper_lines_map_add_nl.
Qed.

Lemma readlines_gives_proper_lines_witness :
  (terminated abc_nl = true \/ abc_nl = "") /\
  forallb proper_line (readlines abc_nl) = true.
Proof.
  assert (terminated abc_nl = true \/ abc_nl = "") as H by (left; reflexivity).
  split; [exact H|].
  apply (proj1 (proj2 (proj2 (readlines_gives_proper_lines abc_nl)))).
  exact H.
Defined.

(** X3: proper lines without carriage returns that [write_file] has
    written are the lines [read_file] returns. *)
Theorem written_lines_are_read_back
    (filepath : string) (lines : list string) (w : world) :
  forallb proper_line lines = true -> contains_cr (join lines) = false ->
  room w = None ->
  ((write_file filepath lines ;; read_file filepath) w).1 = Return lines.
Proof.
  intros Hp Hcr Hr. unfold_run. rewrite Hr. project.
  rewrite lookup_insert_eq, app_empty_l. project.
  by rewrite universal_newlines_id, readlines_join.
Qed.

Lemma written_lines_are_read_back_witness :
  let w := world_of abc None in
  (forallb proper_line doc6 = true /\ contains_cr (join doc6) = false /\
   room w = None) /\
  ((write_file "f" doc6 ;; read_file "f") w).1 = Return doc6.
Proof.
  cbv zeta. split; [repeat split; reflexivity|].
  apply written_lines_are_read_back; reflexivity.
Defined.

(** X4: on a document of proper lines without carriage returns, and
    with a text without carriage returns, the lines that replace, insert
    and delete put together are proper again, whatever the bounds, and
    [read_file] returns these very lines once [write_file] has written
    them. *)
Theorem edits_keep_lines_proper
    (filepath : string) (doc : list string) (text : string) (start stop : Z)
    (w : world) :
  forallb proper_line doc = true -> existsb contains_cr doc = false ->
  contains_cr text = false -> room w = None ->
  let replaced := splice doc start stop (split_replace text) in
  let inserted := splice doc start start (split_insert text) in
  let deleted := splice doc start stop [] in
  let read_back lines :=
    ((write_file filepath lines ;; read_file filepath) w).1 in
  (forallb proper_line replaced = true /\
   read_back replaced = Return replaced) /\
  (forallb proper_line inserted = true /\
   read_back inserted = Return inserted) /\
  (forallb proper_line deleted = true /\ read_back deleted = Return deleted).
Proof.
  intros Hd Hcd Hct Hr. cbv zeta.
  pose proof (proper_lines_splice doc _ start stop Hd
                (proper_lines_split_replace text)) as H1.
  pose proof (proper_lines_splice doc _ start start Hd
                (proper_lines_split_insert text)) as H2.
  pose proof (proper_lines_splice doc [] start stop Hd eq_refl) as H3.
  repeat split; try done; apply write_then_read; try done;
    apply splice_no_cr; try done.
  - by apply split_replace_no_cr.
  - by apply split_insert_no_cr.
Qed.

Lemma edits_keep_lines_proper_witness :
  let w := world_of abc None in
  (forallb proper_line doc6 = true /\ existsb contains_cr doc6 = false /\
   contains_cr abc = false /\ room w = None) /\
  ((write_file "f" (splice doc6 (-2) 9 (split_replace abc)) ;; read_file "f")
     w).1
  = Return (splice doc6 (-2) 9 (split_replace abc)).
Proof.
  cbv zeta. split; [repeat split; reflexivity|].
  destruct (edits_keep_lines_proper "f" doc6 abc (-2) 9 (world_of abc None))
    as ((_ & H) & _); [reflexivity..|].
  exact H.
Defined.

(** ** Where the bounds send the new lines *)

(** X5: insert after line 0 puts the new lines before the first line;
    an after-line at or beyond the last line puts them behind the last
    line; a negative after-line counts from the end, and from the start
    again once it passes it. *)
Theorem insert_position (doc new : list string) (a : Z) :
  let result := splice doc a a new in
  let n := Z.of_nat (length doc) in
  (a = 0 -> result = new ++ doc) /\
  (n <= a -> result = doc ++ new) /\
  (0 <= a <= n ->
     result = take (Z.to_nat a) doc ++ new ++ drop (Z.to_nat a) doc) /\
  (- n <= a < 0 ->
     result = take (Z.to_nat (n + a)) doc ++ new ++ drop (Z.to_nat (n + a)) doc) /\
  (a < - n -> result = new ++ doc).
Proof.
  cbv zeta. rewrite splice_cut. unfold clamp. repeat split; intros Ha.
  - destruct (Z.ltb_spec a 0); [lia|]. rewrite Z.min_l by lia. by subst a.
  - destruct (Z.ltb_spec a 0); [lia|].
    rewrite Z.min_r, Nat2Z.id by lia.
    by rewrite take_ge, drop_all, app_nil_r.
  - destruct (Z.ltb_spec a 0); [lia|]. by rewrite Z.min_l by lia.
  - destruct (Z.ltb_spec a 0); [|lia]. by rewrite Z.max_r by lia.
  - destruct (Z.ltb_spec a 0); [|lia]. by rewrite Z.max_l by lia.
Qed.

Lemma insert_position_witness :
  0 = 0 /\ splice doc6 0 0 (split_insert abc) = split_insert abc ++ doc6.
Proof.
  split; [reflexivity|].
  apply (proj1 (insert_position doc6 (split_insert abc) 0)). reflexivity.
Defined.

(** X6: for a range [s..e] within the document, replace and delete leave
    as many lines as there were, less the [e - s + 1] of the range, plus
    the new ones. *)
Theorem splice_length (doc new : list string) (s e : Z) :
  1 <= s -> s <= e + 1 -> e <= Z.of_nat (length doc) ->
  Z.of_nat (length (splice doc (s - 1) e new))
  = Z.of_nat (length doc) - (e - s + 1) + Z.of_nat (length new).
Proof.
  intros H1 H2 H3. rewrite splice_range by done.
  rewrite !length_app, length_take, length_drop. lia.
Qed.

Lemma splice_length_witness :
  (1 <= 2 /\ 2 <= 4 + 1 /\ 4 <= Z.of_nat (length doc6)) /\
  Z.of_nat (length (splice doc6 (2 - 1) 4 (split_replace abc)))
  = Z.of_nat (length doc6) - (4 - 2 + 1)
    + Z.of_nat (length (split_replace abc)).
Proof.
  split; [cbn; lia|]. apply splice_length; cbn; lia.
Defined.

(** X7: an end below [start - 1] is not refused and removes nothing: the
    lines [e+1 .. s-1] then stand in the result twice, once before the
    new lines and once behind them. *)
Theorem reversed_range_duplicates_lines (doc new : list string) (s e : Z) :
  0 <= e -> e < s - 1 -> s - 1 <= Z.of_nat (length doc) ->
  let twice := lines_between (e + 1) (s - 1) doc in
  splice doc (s - 1) e new
  = take (Z.to_nat e) doc ++ twice ++ new ++ twice ++ drop (Z.to_nat (s - 1)) doc
  /\ Z.of_nat (length twice) = s - 1 - e.
Proof.
  intros H1 H2 H3 twice. subst twice. unfold lines_between, slice.
  rewrite splice_cut, !clamp_in_range by lia.
  replace (e + 1 - 1) with e by lia.
  set (m := (Z.to_nat (s - 1) - Z.to_nat e)%nat).
  replace (Z.to_nat (s - 1)) with (Z.to_nat e + m)%nat by lia.
  split.
  - rewrite <- take_take_drop, <- List.app_assoc. do 3 f_equal.
    rewrite <- drop_drop. by rewrite take_drop.
  - rewrite length_take, length_drop. lia.
Qed.

Lemma reversed_range_duplicates_lines_witness :
  (0 <= 1 /\ 1 < 4 - 1 /\ 4 - 1 <= Z.of_nat (length doc6)) /\
  splice doc6 (4 - 1) 1 []
  = ["l1" +:+ nl; "l2" +:+ nl; "l3" +:+ nl;
     "l2" +:+ nl; "l3" +:+ nl; "l4" +:+ nl; "l5" +:+ nl; "l6" +:+ nl].
Proof.
  split; [cbn; lia|].
  destruct (reversed_range_duplicates_lines doc6 [] 4 1) as [H _];
    [cbn; lia..|].
  exact H.
Defined.

(** X8: a range that starts behind the last line removes nothing:
    delete leaves the document as it is, and replace puts its lines
    behind the last line. *)
Theorem range_past_the_end (doc new : list string) (s e : Z) :
  Z.of_nat (length doc) < s -> Z.of_nat (length doc) <= e ->
  splice doc (s - 1) e new = doc ++ new /\ splice doc (s - 1) e [] = doc.
Proof.
  intros H1 H2. rewrite !splice_cut. unfold clamp.
  destruct (Z.ltb_spec (s - 1) 0), (Z.ltb_spec e 0); try lia.
  rewrite !Z.min_r, !Nat2Z.id by lia.
  by rewrite take_ge, drop_all, !app_nil_r.
Qed.

Lemma range_past_the_end_witness :
  (Z.of_nat (length doc6) < 7 /\ Z.of_nat (length doc6) <= 9) /\
  splice doc6 (7 - 1) 9 [] = doc6.
Proof.
  split; [cbn; lia|].
  apply (proj2 (range_past_the_end doc6 [] 7 9 ltac:(cbn; lia) ltac:(cbn; lia))).
Defined.

(** X9: handing the text of the deleted lines [s..e] back restores the
    document through the replace branch whenever those lines are proper,
    and through the insert branch when, in addition, none of them is
    blank. *)
Theorem deleted_lines_handed_back
    (doc : list string) (s e : Z) (ps : list string) :
  1 <= s -> s <= e + 1 -> e <= Z.of_nat (length doc) ->
  lines_between s e doc = map add_nl ps ->
  Forall (fun p => contains_nl p = false) ps ->
  delete_then_replace doc s e = doc /\
  (Forall (fun p => truthy p = true) ps -> delete_then_insert doc s e = doc).
Proof.
  intros H1 H2 H3 Hm Hps. split.
  - by apply (delete_then_replace_restores doc s e H1 H2 H3 ps).
  - intros Hne. by apply (delete_then_insert_restores doc s e H1 H2 H3 ps).
Qed.

Lemma deleted_lines_handed_back_witness :
  (1 <= 2 /\ 2 <= 3 + 1 /\ 3 <= Z.of_nat (length doc6) /\
   lines_between 2 3 doc6 = map add_nl ["l2"; "l3"]) /\
  delete_then_replace doc6 2 3 = doc6.
Proof.
  split; [repeat split; (reflexivity || (cbn; lia))|].
  apply (proj1 (deleted_lines_handed_back doc6 2 3 ["l2"; "l3"]
                  ltac:(lia) ltac:(lia) ltac:(cbn; lia) eq_refl
                  ltac:(repeat constructor))).
Defined.

(** ** More on text splitting *)


(** X10: the insert branch produces the lines of the replace branch, and
    one blank line more behind them exactly when the text ends in a
    newline and holds a blank line. *)
Theorem insert_adds_a_blank_line (text : string) :
  split_insert text
  = split_replace text
    ++ (if blank_inside text && terminated text then [nl] else []).
Proof.
  destruct (split_nl_spec text) as (ps & lst & Hs & Hj & Hps & Hlst).
  rewrite (split_replace_spec text ps lst Hs Hj Hlst).
  pose proof (last_fragment_empty text ps lst Hj Hlst) as Hl.
  unfold blank_inside. rewrite Hs, init_snoc.
  destruct (existsb _ ps) eqn:Hb; cbn [andb].
  - apply existsb_exists in Hb as (p & Hp%list_elem_of_In & Ep).
    destruct p; [|done]. clear Ep.
    assert (truthy text = true) as Ht.
    { rewrite Hj. apply list_elem_of_split in Hp as (l1 & l2 & ->).
      rewrite map_app, join_app. cbn [map]. rewrite join_cons.
      by destruct (join (map add_nl l1)). }
    rewrite Ht, orb_false_r in Hl. rewrite Hl.
    unfold split_insert. rewrite Hs.
    rewrite forallb_filter_id.
    + destruct lst; cbn [truthy negb]; [|by rewrite app_nil_r].
      by rewrite app_nil_r, map_app.
    + apply forallb_forall. intros x _. unfold insert_keep.
      destruct x; [|done]. cbn [truthy orb].
      destruct (index_blank_first ps [lst] Hp) as (i & -> & Hi).
      rewrite length_app. cbn [length]. apply Z.ltb_lt. lia.
  - rewrite app_nil_r. apply split_insert_spec; [done|].
    apply Forall_forall. intros p Hp. destruct (truthy p) eqn:Ep; [done|].
    exfalso. assert (existsb (fun l => negb (truthy l)) ps = true) as Hx;
      [|congruence].
    apply existsb_exists. exists p. rewrite Ep. split; [|done].
    by apply list_elem_of_In.
Qed.

(** X11: the number of lines the replace branch produces, which is the
    number it reports, is the number of newlines in the text, plus one
    when the text is not empty and does not end in a newline. *)
Theorem split_replace_count (text : string) :
  length (split_replace text)
  = (count_nl text
     + (if terminated text || negb (truthy text) then 0 else 1))%nat.
Proof.
  destruct (split_nl_spec text) as (ps & lst & Hs & Hj & Hps & Hlst).
  rewrite (split_replace_spec text ps lst Hs Hj Hlst).
  rewrite (last_fragment_empty text ps lst Hj Hlst).
  pose proof (length_split_nl text) as Hn. rewrite Hs, length_app in Hn.
  rewrite length_map, length_app. cbn [length] in *.
  destruct (truthy lst); cbn [length negb]; lia.
Qed.

(** X12: for a text without carriage returns, the lines of the replace
    branch are the lines [read_file] returns for a file that holds the
    text, with a newline put behind it when it is not empty and lacks
    one. *)
Theorem split_replace_reads_as_lines
    (filepath text : string) (w : world) :
  contains_cr text = false ->
  files w !! filepath
  = Some (if terminated text || negb (truthy text) then text
          else text +:+ nl) ->
  (read_file filepath w).1 = Return (split_replace text).
Proof.
  intros Hcr Hf. unfold_run. rewrite Hf. project.
  rewrite <- join_split_replace.
  rewrite universal_newlines_id
    by (rewrite contains_cr_join; by apply split_replace_no_cr).
  f_equal. apply readlines_join, proper_lines_split_replace.
Qed.

Lemma split_replace_reads_as_lines_witness :
  let w := world_of abc_nl None in
  (contains_cr abc = false /\ files w !! "f" = Some abc_nl) /\
  (read_file "f" w).1 = Return (split_replace abc).
Proof.
  cbv zeta. split; [split; reflexivity|].
  apply (split_replace_reads_as_lines "f" abc); reflexivity.
Defined.

(** ** Missing files and missing operands *)





(** X15: replace, insert and delete without a line number, and replace
    and delete with a start but no end, raise [IndexError] before they
    read standard input or open the file: the world stays as it was. *)
Theorem missing_line_number_raises_index_error
    (prog filepath action a3 : string) (w : world) :
  rewriting_action action = true ->
  main [prog; filepath; action] w = (Raise IndexError, w) /\
  (action <> "insert" -> is_Some (PyInt.int a3) ->
   main [prog; filepath; action; a3] w = (Raise IndexError, w)).
Proof.
  intros Ha. rewrite !main_dispatch. unfold rewriting_action in Ha.
  destruct (String.eqb_spec action "show") as [->|_]; [done|].
  destruct (String.eqb_spec action "replace") as [->|_].
  { split; [done|]. intros _ [n Hn]. unfold_run. simpl. by rewrite Hn. }
  destruct (String.eqb_spec action "insert") as [->|_]; [done|].
  destruct (String.eqb_spec action "append") as [->|_]; [done|].
  destruct (String.eqb_spec action "delete") as [->|_]; [|done].
  split; [done|]. intros _ [n Hn]. unfold_run. simpl. by rewrite Hn.
Qed.

Lemma missing_line_number_raises_index_error_witness :
  let w := world_of abc_nl None in
  rewriting_action "replace" = true /\
  main ["edit_file.py"; "f"; "replace"] w = (Raise IndexError, w).
Proof.
  cbv zeta. split; [reflexivity|].
  apply (proj1 (missing_line_number_raises_index_error
                  "edit_file.py" "f" "replace" "1" (world_of abc_nl None)
                  eq_refl)).
Defined.

(** ** What show prints *)

Section ShowFacts.

Lemma enumerate_lookup {A} (l : list A) (k : Z) :
  Forall (fun p => exists j : nat, p.1 = k + Z.of_nat j /\ l !! j = Some p.2)
         (enumerate k l).
Proof.
  revert k. induction l as [|x l IH]; intros k; [constructor|].
  cbn [enumerate]. constructor.
  - exists 0%nat. split; [cbn; lia|done].
  - eapply Forall_impl; [apply IH|]. intros p (j & Hj & Hl).
    exists (S j). split; [lia|done].
Qed.

Lemma length_enumerate {A} (l : list A) (k : Z) :
  length (enumerate k l) = length l.
Proof.
  revert k. induction l as [|x l IH]; intros k; [done|].
  cbn [enumerate length]. by rewrite IH.
Qed.

Lemma slice_lookup {A} (doc : list A) (start stop : Z) (j : nat) (x : A) :
  0 <= start ->
  slice start stop doc !! j = Some x -> doc !! (Z.to_nat start + j)%nat = Some x.
Proof.
  intros Hs. unfold slice. intros [Hx _]%lookup_take_Some.
  rewrite lookup_drop in Hx.
  assert (clamp (length doc) start + j < length doc)%nat as Hlt
    by (by apply lookup_lt_Some in Hx).
  replace (Z.to_nat start) with (clamp (length doc) start); [done|].
  unfold clamp in *. destruct (Z.ltb_spec start 0); lia.
Qed.

Lemma show_run (prog filepath a3 a4 content : string) (rest : list string)
    (w : world) (s e : Z) :
  files w !! filepath = Some content ->
  PyInt.int a3 = Some s -> PyInt.int a4 = Some e ->
  let doc := readlines (universal_newlines content) in
  main (prog :: filepath :: "show" :: a3 :: a4 :: rest) w
  = (Return tt,
     World (files w) (stdin w)
           (stdout w
            +:+ join (map show_line (enumerate s (lines_between s e doc))))
           (room w) ((filepath, ModeR) :: opened w) (creatable w)).
Proof.
  intros Hf H3 H4. cbv zeta. rewrite main_dispatch.
  change (String.eqb "show" "show") with true. cbv iota.
  unfold_show. simpl. rewrite Hf. project. rewrite H3, H4.
  rewrite for_each_write_out. project. unfold lines_between.
  by replace (s - 1 + 1) with s by lia.
Qed.

End ShowFacts.

(** X16: show with a start of 1 or more and an end prints the lines of
    that range, each behind its own 1-based position in the file, and
    leaves the files alone; within the document these are [e - s + 1]
    lines. *)
Theorem show_prints_lines_with_their_positions
    (prog filepath a3 a4 content : string) (rest : list string)
    (w : world) (s e : Z) :
  files w !! filepath = Some content ->
  PyInt.int a3 = Some s -> PyInt.int a4 = Some e -> 1 <= s ->
  let doc := readlines (universal_newlines content) in
  let shown := enumerate s (lines_between s e doc) in
  let run := main (prog :: filepath :: "show" :: a3 :: a4 :: rest) w in
  run.1 = Return tt /\ files run.2 = files w /\
  stdout run.2 = stdout w +:+ join (map show_line shown) /\
  Forall (fun p => line doc p.1 = Some p.2) shown /\
  (s <= e + 1 -> e <= Z.of_nat (length doc) ->
   Z.of_nat (length shown) = e - s + 1).
Proof.
  intros Hf H3 H4 Hs doc shown run. subst run shown.
  rewrite (show_run prog filepath a3 a4 content rest w s e Hf H3 H4).
  project. fold doc. repeat split.
  - eapply Forall_impl; [apply enumerate_lookup|].
    intros [i l] (j & Hi & Hl). cbn [fst snd] in *. unfold lines_between in Hl.
    apply slice_lookup in Hl; [|lia]. unfold line. subst i.
    by replace (Z.to_nat (s + Z.of_nat j - 1))
      with (Z.to_nat (s - 1) + j)%nat by lia.
  - intros H1 H2. rewrite length_enumerate. unfold lines_between, slice.
    rewrite !clamp_in_range by lia. rewrite length_take, length_drop. lia.
Qed.

Lemma show_prints_lines_with_their_positions_witness :
  let w := world_of abc_nl None in
  let argv := ["edit_file.py"; "f"; "show"; "2"; "3"] in
  (files w !! "f" = Some abc_nl /\ PyInt.int "2" = Some 2 /\
   PyInt.int "3" = Some 3 /\ 1 <= 2) /\
  (main argv w).1 = Return tt.
Proof.
  cbv zeta. split; [repeat split; (reflexivity || lia)|].
  apply (show_prints_lines_with_their_positions
           "edit_file.py" "f" "2" "3" abc_nl [] (world_of abc_nl None) 2 3);
    (reflexivity || lia).
Defined.

(** X17: show without a range prints every line of the file, numbered
    from 1. *)
Theorem show_without_range_prints_every_line
    (prog filepath content : string) (w : world) :
  files w !! filepath = Some content ->
  let doc := readlines (universal_newlines content) in
  let run := main [prog; filepath; "show"] w in
  run.1 = Return tt /\ files run.2 = files w /\
  stdout run.2 = stdout w +:+ join (map show_line (enumerate 1 doc)).
Proof.
  intros Hf. cbv zeta. rewrite main_dispatch.
  change (String.eqb "show" "show") with true. cbv iota.
  unfold_show. simpl. rewrite Hf. project.
  rewrite for_each_write_out. project. repeat split.
  unfold slice. rewrite !clamp_in_range by lia.
  change (Z.to_nat 0) with 0%nat. rewrite drop_0, take_ge by lia. done.
Qed.

Lemma show_without_range_prints_every_line_witness :
  let w := world_of abc_nl None in
  files w !! "f" = Some abc_nl /\
  stdout (main ["edit_file.py"; "f"; "show"] w).2
  = "   1: a" +:+ nl +:+ "   2: b" +:+ nl +:+ "   3: c" +:+ nl.
Proof.
  cbv zeta. split; [reflexivity|].
  destruct (show_without_range_prints_every_line
              "edit_file.py" "f" abc_nl (world_of abc_nl None) eq_refl)
    as (_ & _ & H).
  exact H.
Defined.

(** ** Insert, then delete *)

Section InsertDelete.

Lemma insert_then_delete_lines (doc new : list string) (a : Z) :
  0 <= a <= Z.of_nat (length doc) ->
  splice (splice doc a a new) (a + 1 - 1) (a + Z.of_nat (length new)) [] = doc.
Proof.
  intros Ha. rewrite (splice_cut doc new a a), clamp_in_range by lia.
  set (k := Z.to_nat a).
  assert (length (take k doc) = k) as Hk by (rewrite length_take; lia).
  rewrite splice_cut, !clamp_in_range
    by (rewrite ?length_app, ?length_drop, ?Hk; lia).
  replace (Z.to_nat (a + 1 - 1)) with (length (take k doc)) by lia.
  rewrite take_app_length. cbn [app]. rewrite List.app_assoc.
  rewrite drop_app_length' by (rewrite length_app; lia).
  apply take_drop.
Qed.

Lemma unlimited_room_stays
    (prog filepath a3 text content : string) (w : world) (a : Z) :
  files w !! filepath = Some content -> room w = None ->
  PyInt.int a3 = Some a ->
  room (main [prog; filepath; "insert"; a3; text] w).2 = None.
Proof.
  intros Hf Hr H3. rewrite main_dispatch.
  change (String.eqb "insert" "show") with false.
  change (String.eqb "insert" "replace") with false.
  change (String.eqb "insert" "insert") with true. cbv iota.
  unfold_run. simpl. rewrite H3, Hf. project. by rewrite Hr.
Qed.

End InsertDelete.

(** X18: on a file without carriage returns that is empty or ends in a
    newline, inserting a text without carriage returns after line [a]
    and then deleting the lines [a+1 .. a+n], where [n] is the number of
    lines inserted, gives the file its old content back. *)
Theorem insert_then_delete_restores_file
    (prog filepath a3 text d3 d4 content : string) (w : world) (a : Z) :
  files w !! filepath = Some content -> room w = None ->
  contains_cr content = false -> contains_cr text = false ->
  terminated content = true \/ content = "" ->
  0 <= a <= Z.of_nat (length (readlines content)) ->
  PyInt.int a3 = Some a -> PyInt.int d3 = Some (a + 1) ->
  PyInt.int d4 = Some (a + Z.of_nat (length (split_insert text))) ->
  let run1 := main [prog; filepath; "insert"; a3; text] w in
  let run2 := main [prog; filepath; "delete"; d3; d4] run1.2 in
  run1.1 = Return tt /\ run2.1 = Return tt /\ files run2.2 = files w.
Proof.
  intros Hf Hr Hc Ht Hend Ha H3 Hd3 Hd4. cbv zeta.
  pose proof (unlimited_room_stays prog filepath a3 text content w a Hf Hr H3)
    as Hr1.
  destruct (insert_writes_spliced_lines prog filepath a3 text content []
              w a Hf Hr H3) as [Hret1 Hf1].
  rewrite universal_newlines_id in Hf1 by done.
  set (doc := readlines content) in *.
  set (inserted := splice doc a a (split_insert text)) in *.
  assert (files (main [prog; filepath; "insert"; a3; text] w).2 !! filepath
          = Some (join inserted)) as Hf1'.
  { by rewrite Hf1, lookup_insert_eq. }
  destruct (delete_writes_spliced_lines prog filepath d3 d4 (join inserted) []
              _ _ _ Hf1' Hr1 Hd3 Hd4) as [Hret2 Hf2].
  assert (forallb proper_line inserted = true) as Hp.
  { apply proper_lines_splice; [by apply readlines_proper|].
    apply proper_lines_split_insert. }
  assert (contains_cr (join inserted) = false) as Hcr.
  { rewrite contains_cr_join. unfold inserted, splice, upto, from.
    assert (existsb contains_cr doc = false) as Hdoc.
    { rewrite <- contains_cr_join. unfold doc. by rewrite join_readlines. }
    rewrite !existsb_app, existsb_take_false, existsb_drop_false by done.
    by rewrite split_insert_no_cr. }
  rewrite universal_newlines_id, readlines_join in Hf2 by done.
  unfold inserted in Hf2 at 1. rewrite insert_then_delete_lines in Hf2 by done.
  repeat split; [done..|].
  rewrite Hf2, Hf1, insert_insert_eq. unfold doc. rewrite join_readlines.
  by apply insert_id.
Qed.

Lemma insert_then_delete_restores_file_witness :
  let w := world_of abc_nl None in
  let text := "x" +:+ nl +:+ nl +:+ "y" +:+ nl in
  (files w !! "f" = Some abc_nl /\ room w = None /\
   contains_cr abc_nl = false /\ contains_cr text = false /\
   terminated abc_nl = true /\
   0 <= 1 <= Z.of_nat (length (readlines abc_nl)) /\
   PyInt.int "1" = Some 1 /\ PyInt.int "2" = Some (1 + 1) /\
   PyInt.int "5" = Some (1 + Z.of_nat (length (split_insert text)))) /\
  files (main ["edit_file.py"; "f"; "delete"; "2"; "5"]
           (main ["edit_file.py"; "f"; "insert"; "1"; text] w).2).2
  = files w.
Proof.
  cbv zeta.
  split; [repeat split; first [reflexivity | vm_compute; discriminate]|].
  apply (insert_then_delete_restores_file
           "edit_file.py" "f" "1" ("x" +:+ nl +:+ nl +:+ "y" +:+ nl) "2" "5"
           abc_nl (world_of abc_nl None) 1);
    first [reflexivity | left; reflexivity
          | split; vm_compute; discriminate].
Defined.

(** ** Text from standard input *)

(** X19: without the text argument, replace, insert and append take all
    of standard input, as it is, and then do what they do with that text
    as the argument; a run that returns has read standard input to its
    end. *)
Theorem text_from_stdin_is_the_argument
    (prog filepath a3 a4 : string) (w : world) :
  let piped := stdin w in
  let same (run1 run2 : result unit * world) :=
    run1.1 = run2.1 /\ files run1.2 = files run2.2 /\
    stdout run1.2 = stdout run2.2 /\ opened run1.2 = opened run2.2 /\
    (run1.1 = Return tt -> stdin run1.2 = "") in
  same (main [prog; filepath; "replace"; a3; a4] w)
       (main [prog; filepath; "replace"; a3; a4; piped] w) /\
  same (main [prog; filepath; "insert"; a3] w)
       (main [prog; filepath; "insert"; a3; piped] w) /\
  same (main [prog; filepath; "append"] w)
       (main [prog; filepath; "append"; piped] w).
Proof.
  cbv zeta. rewrite !main_dispatch.
  change (String.eqb "replace" "show") with false.
  change (String.eqb "replace" "replace") with true.
  change (String.eqb "insert" "show") with false.
  change (String.eqb "insert" "replace") with false.
  change (String.eqb "insert" "insert") with true.
  change (String.eqb "append" "show") with false.
  change (String.eqb "append" "replace") with false.
  change (String.eqb "append" "insert") with false.
  change (String.eqb "append" "append") with true. cbv iota.
  unfold_run. simpl. repeat split; repeat (break_goal; project); done.
Qed.

(** ** Replacing twice, and the width of the ordinals *)

(** On the line sequence, the lines that a replace has put in are
    replaced by the same lines without any change. *)
Lemma replace_again_lines
    (doc : list string) (text : string) (s e : Z) :
  1 <= s -> s <= e + 1 -> e <= Z.of_nat (length doc) ->
  let new := split_replace text in
  let once := splice doc (s - 1) e new in
  splice once (s - 1) (s - 1 + Z.of_nat (length new)) new = once.
Proof.
  intros H1 H2 H3 new once. subst once.
  rewrite (splice_range doc new) by done.
  set (k := Z.to_nat (s - 1)).
  assert (length (take k doc) = k) as Hk by (rewrite length_take; lia).
  rewrite splice_cut, !clamp_in_range
    by (rewrite ?length_app, ?length_drop, ?Hk; lia).
  replace (Z.to_nat (s - 1)) with (length (take k doc)) by lia.
  rewrite take_app_length. do 2 f_equal.
  rewrite List.app_assoc. apply drop_app_length'. rewrite length_app. lia.
Qed.

Lemma replace_keeps_room_unlimited
    (prog filepath a3 a4 text content : string) (w : world) (s e : Z) :
  files w !! filepath = Some content -> room w = None ->
  PyInt.int a3 = Some s -> PyInt.int a4 = Some e ->
  room (main [prog; filepath; "replace"; a3; a4; text] w).2 = None.
Proof.
  intros Hf Hr H3 H4. rewrite main_dispatch.
  change (String.eqb "replace" "show") with false.
  change (String.eqb "replace" "replace") with true. cbv iota.
  unfold_run. simpl. rewrite H3, H4, Hf. project. by rewrite Hr.
Qed.

(** X20: on a file without carriage returns that is empty or ends in a
    newline, replacing a range within the document by a text without
    carriage returns, and then, in a second run, the lines this has
    written by the same text again, leaves the file as the first run
    has written it. *)
Theorem replace_again_changes_nothing
    (prog filepath a3 a4 b4 text content : string) (w : world) (s e : Z) :
  files w !! filepath = Some content -> room w = None ->
  contains_cr content = false -> contains_cr text = false ->
  terminated content = true \/ content = "" ->
  PyInt.int a3 = Some s -> PyInt.int a4 = Some e ->
  PyInt.int b4 = Some (s - 1 + Z.of_nat (length (split_replace text))) ->
  1 <= s -> s <= e + 1 -> e <= Z.of_nat (length (readlines content)) ->
  let run1 := main [prog; filepath; "replace"; a3; a4; text] w in
  let run2 := main [prog; filepath; "replace"; a3; b4; text] run1.2 in
  run1.1 = Return tt /\ run2.1 = Return tt /\ files run2.2 = files run1.2.
Proof.
  intros Hf Hr Hc Ht Hend H3 H4 Hb4 H1 H2 He. cbv zeta.
  pose proof (replace_keeps_room_unlimited prog filepath a3 a4 text content
                w s e Hf Hr H3 H4) as Hr1.
  destruct (replace_writes_spliced_lines prog filepath a3 a4 text content []
              w s e Hf Hr H3 H4) as [Hret1 Hf1].
  rewrite universal_newlines_id in Hf1 by done.
  set (doc := readlines content) in *.
  set (once := splice doc (s - 1) e (split_replace text)) in *.
  assert (files (main [prog; filepath; "replace"; a3; a4; text] w).2
            !! filepath = Some (join once)) as Hf1'.
  { by rewrite Hf1, lookup_insert_eq. }
  destruct (replace_writes_spliced_lines prog filepath a3 b4 text (join once)
              [] _ _ _ Hf1' Hr1 H3 Hb4) as [Hret2 Hf2].
  assert (forallb proper_line once = true) as Hp.
  { apply proper_lines_splice; [by apply readlines_proper|].
    apply proper_lines_split_replace. }
  assert (contains_cr (join once) = false) as Hcr.
  { rewrite contains_cr_join. apply splice_no_cr.
    - by apply readlines_no_cr.
    - by apply split_replace_no_cr. }
  rewrite universal_newlines_id, readlines_join in Hf2 by done.
  unfold once in Hf2 at 1. rewrite replace_again_lines in Hf2 by done.
  repeat split; [done..|]. rewrite Hf2. by apply insert_id.
Qed.

Lemma replace_again_changes_nothing_witness :
  let w := world_of (join doc6) None in
  let run1 := main ["edit_file.py"; "f"; "replace"; "2"; "4"; abc] w in
  let run2 := main ["edit_file.py"; "f"; "replace"; "2"; "4"; abc] run1.2 in
  (files w !! "f" = Some (join doc6) /\ room w = None /\
   contains_cr (join doc6) = false /\ contains_cr abc = false /\
   terminated (join doc6) = true /\
   PyInt.int "2" = Some 2 /\ PyInt.int "4" = Some 4 /\
   PyInt.int "4" = Some (2 - 1 + Z.of_nat (length (split_replace abc)))) /\
  files run2.2 = files run1.2.
Proof.
  cbv zeta. split; [repeat split; reflexivity|].
  apply (replace_again_changes_nothing
           "edit_file.py" "f" "2" "4" "4" abc (join doc6)
           (world_of (join doc6) None) 2 4);
    first [reflexivity | left; reflexivity | vm_compute; discriminate | lia].
Defined.

Section Width.

Lemma length_app_string (a b : string) :
  String.length (a +:+ b) = (String.length a + String.length b)%nat.
Proof.
  induction a as [|c a IH]; [done|]. rewrite app_cons. cbn [String.length].
  by rewrite IH.
Qed.

Lemma length_blanks (n : nat) :
  String.length (String.concat "" (replicate n " ")) = n.
Proof.
  induction n as [|n IH]; [done|]. cbn [replicate String.concat].
  destruct (replicate n " ") eqn:E; [by destruct n|].
  rewrite app_cons, !app_empty_l. cbn [String.length]. by rewrite IH.
Qed.

Lemma pretty_N_go_length_le (k : nat) :
  forall (x : N) (s : string), (x < 10 ^ N.of_nat k)%N ->
  (String.length (pretty_N_go x s) <= String.length s + k)%nat.
Proof.
  induction k as [|k IH]; intros x s Hx.
  - assert (x = 0%N) as -> by (cbn in Hx; lia). rewrite pretty_N_go_0. lia.
  - destruct (decide (x = 0%N)) as [->|Hne].
    { rewrite pretty_N_go_0. lia. }
    rewrite pretty_N_go_step by lia.
    etrans; [apply IH|cbn [String.length]; lia].
    rewrite Nat2N.inj_succ, N.pow_succ_r' in Hx.
    apply N.Div0.div_lt_upper_bound. lia.
Qed.

End Width.

(** X21: for the ordinals 1 to 9999 show prints a number field of
    exactly four characters, so that the lines stand in one column; the
    ordinal 10000 takes five. *)
Theorem ordinal_field_is_four_wide (i : Z) (l : string) :
  1 <= i <= 9999 ->
  String.length (PyInt.fmt4d i) = 4%nat /\
  String.length (show_line (i, l)) = (6 + String.length l)%nat /\
  String.length (PyInt.fmt4d 10000) = 5%nat.
Proof.
  intros Hi.
  assert (String.length (PyInt.fmt4d i) = 4%nat) as H4.
  { unfold PyInt.fmt4d. rewrite length_app_string, length_blanks.
    destruct i as [|p|p]; [lia| |lia].
    unfold pretty, pretty_Z, pretty, pretty_positive, pretty, pretty_N.
    destruct (decide _) as [|_]; [done|].
    pose proof (pretty_N_go_length_le 4 (N.pos p) "" ltac:(cbn; lia)).
    cbn [String.length] in *. lia. }
  split; [done|]. split; [|reflexivity].
  unfold show_line. cbn [fst snd]. by rewrite !length_app_string, H4.
Qed.

Lemma ordinal_field_is_four_wide_witness :
  1 <= 42 <= 9999 /\ String.length (PyInt.fmt4d 42) = 4%nat.
Proof.
  split; [lia|].
  apply (proj1 (ordinal_field_is_four_wide 42 "" ltac:(lia))).
Defined.
